(** * CM360 conversion upload node: a shallow embedding of [main.py]

    The handler decodes a Pub/Sub payload, cuts the conversion rows into
    windows of at most 100, builds one request body per window by string
    concatenation followed by [json.loads], submits it and walks the
    response.  The development below embeds [upload_data] and the part of
    [main] that follows the decoding of the payload, together with the
    fragment of Python's [json] module that the request body goes through.

    Modelling choices:
    - a decoded JSON document is a value of [json]; Python's [None] is
      [JNull]; an [int] is an integer of any size and a [float] an IEEE 754
      double, written by [repr] with the shortest decimal that reads as
      the same double and read from a literal by rounding to the nearest
      double; a [str] is a [string] whose characters are the code points
      0..255;
    - a [dict] is an association list in insertion order; a Python dict
      never repeats a key, which [unique_keys] states;
    - [print] appends an [event] to the standard output kept in the
      [world]; each event stands for one [print] statement of the source
      and carries the data that statement prints;
    - the remote API is a [service]: a function from the number of earlier
      calls, the profile id and the request body to the outcome of
      [request.execute()]. *)

From Stdlib Require Import List String Ascii ZArith NArith Bool Arith Lia.
From Stdlib Require Import Decimal DecimalString DecimalFacts DecimalZ.
From Stdlib Require Import SpecFloat Eqdep_dec.
From Equations Require Import Equations.
Import ListNotations.

Local Open Scope string_scope.
Local Open Scope list_scope.

#[local] Set Warnings "-register-all".

(* ================================================================= *)
(** ** Python floats *)

Definition is_digit (c : ascii) : bool :=
  let n := N_of_ascii c in ((48 <=? n) && (n <=? 57))%N.

(** The longest prefix of digits and what follows it. *)
Fixpoint span_digits (s : string) : string * string :=
  match s with
  | EmptyString => (EmptyString, EmptyString)
  | String c s' =>
      if is_digit c
      then let (ds, rest) := span_digits s' in (String c ds, rest)
      else (EmptyString, s)
  end.

(** [s] without its first character [c], when it starts with [c]. *)
Definition starts_with (c : ascii) (s : string) : option string :=
  match s with
  | String c' s' => if Ascii.eqb c' c then Some s' else None
  | EmptyString => None
  end.

(** A [float] is an IEEE 754 double: 53 bits of mantissa, exponents below
    1024. *)
Definition prec : Z := 53.
Definition emax : Z := 1024.

Definition spec_float_eqb (a b : spec_float) : bool :=
  match a, b with
  | S754_zero s, S754_zero t => Bool.eqb s t
  | S754_infinity s, S754_infinity t => Bool.eqb s t
  | S754_nan, S754_nan => true
  | S754_finite s m e, S754_finite t n k =>
      Bool.eqb s t && Pos.eqb m n && Z.eqb e k
  | _, _ => false
  end.

(** [float] of a decimal literal: the double nearest to [m * 10^e], ties
    to the even mantissa, with the sign [neg]. *)
Definition float_of_decimal (neg : bool) (m e : Z) : spec_float :=
  match m with
  | Zpos p =>
      match e with
      | Zneg k =>
          SFdiv prec emax (S754_finite neg p 0)
            (S754_finite false (Pos.pow 10 k) 0)
      | _ => binary_round prec emax neg (Z.to_pos (m * 10 ^ e)%Z) 0
      end
  | _ => S754_zero neg
  end.

(** The decimal digits of a positive number. *)
Definition digits (z : Z) : string :=
  NilZero.string_of_uint (N.to_uint (Z.to_N z)).

(** The value of a string of digits. *)
Definition digits_value (ds : string) : Z :=
  match NilEmpty.uint_of_string ds with
  | Some d => Z.of_uint d
  | None => 0%Z
  end.

(** [m * 2^e] written exactly as an integer times a power of ten. *)
Definition exact_decimal (m : positive) (e : Z) : Z * Z :=
  match e with
  | Zneg k => (Zpos m * 5 ^ Zpos k, e)%Z
  | _ => (Zpos m * 2 ^ e, 0)%Z
  end.

Definition reads_as (m : positive) (e : Z) (c q : Z) : bool :=
  spec_float_eqb (float_of_decimal false c q) (S754_finite false m e).

(** The decimal with [n] digits that reads as [m * 2^e], if there is one:
    of the two that surround the exact value [d * 10^q] (of [len]
    digits), the nearer one that does, the even one on a tie. *)
Definition shortest_at (m : positive) (e d q : Z) (len n : nat)
  : option (Z * Z) :=
  let p := (10 ^ Z.of_nat (len - n))%Z in
  let q' := (q + Z.of_nat (len - n))%Z in
  let lo := (d / p)%Z in
  let r := (d mod p)%Z in
  let hi := (lo + 1)%Z in
  match reads_as m e lo q', reads_as m e hi q' with
  | true, true =>
      Some (if (2 * r <? p)%Z || ((2 * r =? p)%Z && Z.even lo)
            then lo else hi, q')
  | true, false => Some (lo, q')
  | false, true => Some (hi, q')
  | false, false => None
  end.

(** The shortest decimal that reads as [m * 2^e]; the exact writing when
    [fuel] digits do not suffice (seventeen always do). *)
Fixpoint shortest (m : positive) (e d q : Z) (len fuel n : nat) : Z * Z :=
  match fuel with
  | O => (d, q)
  | S fuel' =>
      match shortest_at m e d q len n with
      | Some c => c
      | None => shortest m e d q len fuel' (S n)
      end
  end.

Fixpoint strip_zeros (fuel : nat) (c q : Z) : Z * Z :=
  match fuel with
  | O => (c, q)
  | S fuel' =>
      if (c mod 10 =? 0)%Z then strip_zeros fuel' (c / 10)%Z (q + 1)%Z
      else (c, q)
  end.

Fixpoint zeros (n : nat) : string :=
  match n with
  | O => EmptyString
  | S n' => String "0" (zeros n')
  end.

(** The layout of [repr]: the digits [ds] of a number [0.ds * 10^decpt],
    with an exponent when [decpt] is below -3 or above 16. *)
Definition float_layout (ds : string) (decpt : Z) : string :=
  let k := Z.of_nat (String.length ds) in
  if (decpt <=? -4)%Z || (16 <? decpt)%Z then
    let x := (decpt - 1)%Z in
    let mantissa :=
      match ds with
      | String c (String c' tl) => String c (String "." (String c' tl))
      | _ => ds
      end in
    (mantissa ++ "e" ++ (if (x <? 0)%Z then "-" else "+")
       ++ (if (Z.abs x <? 10)%Z then "0" else "") ++ digits (Z.abs x))%string
  else if (decpt <=? 0)%Z then
    ("0." ++ zeros (Z.to_nat (- decpt)) ++ ds)%string
  else if (decpt <? k)%Z then
    (substring 0 (Z.to_nat decpt) ds ++ "."
       ++ substring (Z.to_nat decpt) (Z.to_nat (k - decpt)) ds)%string
  else (ds ++ zeros (Z.to_nat (decpt - k)) ++ ".0")%string.

(** [repr(x)] for a float [x]. *)
Definition float_repr (x : spec_float) : string :=
  match x with
  | S754_zero s => if s then "-0.0" else "0.0"
  | S754_infinity s => if s then "-inf" else "inf"
  | S754_nan => "nan"
  | S754_finite s m e =>
      let (d, q) := exact_decimal m e in
      let len := String.length (digits d) in
      let (c, q') := shortest m e d q len 17 1 in
      let (c', q'') := strip_zeros len c q' in
      let ds := digits c' in
      ((if s then "-" else "")
         ++ float_layout ds (Z.of_nat (String.length ds) + q'')%Z)%string
  end.

(** What [json.dumps] writes for a float. *)
Definition floatstr (x : spec_float) : string :=
  match x with
  | S754_infinity s => if s then "-Infinity" else "Infinity"
  | S754_nan => "NaN"
  | _ => float_repr x
  end.

(** A number literal as the decoder reads it. *)
Inductive number : Type :=
| IntLit (z : Z)
| FloatLit (x : spec_float).

(** A fraction: a point and at least one digit. *)
Definition scan_fraction (s : string) : option string * string :=
  match starts_with "." s with
  | Some s' =>
      let (ds, rest) := span_digits s' in
      match ds with
      | EmptyString => (None, s)
      | _ => (Some ds, rest)
      end
  | None => (None, s)
  end.

(** An exponent: [e] or [E], an optional sign and at least one digit. *)
Definition scan_exponent (s : string) : option (bool * string) * string :=
  match s with
  | String c s' =>
      if Ascii.eqb c "e" || Ascii.eqb c "E" then
        let (neg, s1) :=
          match s' with
          | String c' s'' =>
              if Ascii.eqb c' "-" then (true, s'')
              else if Ascii.eqb c' "+" then (false, s'')
              else (false, s')
          | EmptyString => (false, s')
          end in
        let (ds, rest) := span_digits s1 in
        match ds with
        | EmptyString => (None, s)
        | _ => (Some (neg, ds), rest)
        end
      else (None, s)
  | EmptyString => (None, s)
  end.

(** [float(integer + frac + exp)]. *)
Definition float_of_literal (neg : bool) (ds : string)
    (frac : option string) (exp : option (bool * string)) : spec_float :=
  let fd := match frac with Some f => f | None => EmptyString end in
  let x := match exp with
           | Some (true, ed) => (- digits_value ed)%Z
           | Some (false, ed) => digits_value ed
           | None => 0%Z
           end in
  float_of_decimal neg (digits_value (ds ++ fd))
    (x - Z.of_nat (String.length fd))%Z.

(** The integer part of a number: ["0"], or digits that do not start
    with ["0"]. *)
Definition scan_integer (s : string) : string * string :=
  match s with
  | String c s' => if Ascii.eqb c "0" then ("0", s') else span_digits s
  | EmptyString => (EmptyString, EmptyString)
  end.

(** The integer part, the fraction and the exponent of a number whose
    sign is [neg]; a fraction or an exponent makes the number a float. *)
Definition read_unsigned (neg : bool) (s : string)
  : option (number * string) :=
  let (ds, rest) := scan_integer s in
  match ds with
  | EmptyString => None
  | _ =>
      let (frac, r1) := scan_fraction rest in
      let (exp, r2) := scan_exponent r1 in
      match frac, exp with
      | None, None =>
          Some (IntLit (if neg then - digits_value ds else digits_value ds)%Z,
                rest)
      | _, _ => Some (FloatLit (float_of_literal neg ds frac exp), r2)
      end
  end.

(** A number at the start of [s], with its optional minus sign. *)
Definition read_number (s : string) : option (number * string) :=
  match starts_with "-" s with
  | Some s' => read_unsigned true s'
  | None => read_unsigned false s
  end.

(** The text [json.dumps] writes for [x] is read back as [x]. *)
Definition reads_back (x : spec_float) : bool :=
  match x with
  | S754_infinity _ | S754_nan => true
  | _ =>
      match read_number (floatstr x) with
      | Some (FloatLit y, EmptyString) => spec_float_eqb y x
      | _ => false
      end
  end.

(** A float: a double, with the evidence that [json.loads] reads the text
    [json.dumps] writes for it as the same double, which [repr] ensures
    of every double. *)
Record pyfloat : Type := PyFloat {
  double : spec_float;
  double_reads_back : reads_back double = true
}.

(** The float of a double. *)
Definition make_float (x : spec_float) : option pyfloat :=
  match reads_back x as b return reads_back x = b -> option pyfloat with
  | true => fun H => Some (PyFloat x H)
  | false => fun _ => None
  end eq_refl.

Definition float_nan : pyfloat := PyFloat S754_nan eq_refl.

Definition float_infinity (s : bool) : pyfloat :=
  PyFloat (S754_infinity s) eq_refl.

Definition float_zero : pyfloat := PyFloat (S754_zero false) eq_refl.

(** The float a decimal literal [m * 10^e] stands for. *)
Definition pyfloat_of_decimal (m e : Z) : pyfloat :=
  match make_float (float_of_decimal (m <? 0)%Z (Z.abs m) e) with
  | Some x => x
  | None => float_zero
  end.

(* ================================================================= *)
(** ** JSON values as Python sees them *)

Inductive json : Type :=
| JNull
| JBool (b : bool)
| JNum (z : Z)
| JFloat (x : pyfloat)
| JStr (s : string)
| JArr (l : list json)
| JObj (kv : list (string * json)).

Inductive exn : Type :=
| KeyError (key : string)
| TypeError
| JSONDecodeError
| RemoteError (what : string).

Inductive outcome (A : Type) : Type :=
| Ret (a : A)
| Raise (e : exn).
Arguments Ret {A} a.
Arguments Raise {A} e.

(** [bool(v)]: the truth value Python gives a decoded JSON value. *)
Definition truthy (v : json) : bool :=
  match v with
  | JNull => false
  | JBool b => b
  | JNum z => negb (Z.eqb z 0)
  | JFloat x => match double x with S754_zero _ => false | _ => true end
  | JStr s => negb (String.eqb s "")
  | JArr l => match l with [] => false | _ => true end
  | JObj kv => match kv with [] => false | _ => true end
  end.

Fixpoint dict_get (kv : list (string * json)) (k : string) : option json :=
  match kv with
  | [] => None
  | (k', v) :: kv' => if String.eqb k' k then Some v else dict_get kv' k
  end.

(** [d[k] = v] on a dict: an existing key keeps its place. *)
Fixpoint dict_set (kv : list (string * json)) (k : string) (v : json)
  : list (string * json) :=
  match kv with
  | [] => [(k, v)]
  | (k', v') :: kv' =>
      if String.eqb k' k then (k', v) :: kv' else (k', v') :: dict_set kv' k v
  end.

(** [v[k]] for a string [k]: only a dict can be indexed by a string. *)
Definition subscript (v : json) (k : string) : outcome json :=
  match v with
  | JObj kv => match dict_get kv k with
               | Some x => Ret x
               | None => Raise (KeyError k)
               end
  | _ => Raise TypeError
  end.

Definition chars (s : string) : list json :=
  map (fun c => JStr (String c EmptyString)) (list_ascii_of_string s).

(** [for x in v]: the items a [for] loop visits. *)
Definition py_iter (v : json) : outcome (list json) :=
  match v with
  | JArr l => Ret l
  | JStr s => Ret (chars s)
  | JObj kv => Ret (map (fun p => JStr (fst p)) kv)
  | _ => Raise TypeError
  end.

Definition is_str (s : string) (v : json) : bool :=
  match v with JStr s' => String.eqb s' s | _ => false end.

(** [k in v] for a string [k]. *)
Definition contains (v : json) (k : string) : outcome bool :=
  match v with
  | JObj kv => Ret (match dict_get kv k with Some _ => true | None => false end)
  | JArr l => Ret (existsb (is_str k) l)
  | JStr s => Ret (match index 0 k s with Some _ => true | None => false end)
  | _ => Raise TypeError
  end.

(** [l[a:b]] for [0 <= a] and [0 <= b]. *)
Definition slice {A : Type} (l : list A) (a b : nat) : list A :=
  firstn (b - a) (skipn a l).

(** [s[:-1]]. *)
Fixpoint drop_last (s : string) : string :=
  match s with
  | EmptyString => EmptyString
  | String c s' => match s' with
                   | EmptyString => EmptyString
                   | _ => String c (drop_last s')
                   end
  end.

Fixpoint nodupb (l : list string) : bool :=
  match l with
  | [] => true
  | k :: l' => negb (existsb (String.eqb k) l') && nodupb l'
  end.

(** A value Python can hold: no dict in it repeats a key. *)
Fixpoint unique_keys (v : json) : bool :=
  match v with
  | JArr l => forallb unique_keys l
  | JObj kv => nodupb (map fst kv) && forallb (fun p => unique_keys (snd p)) kv
  | _ => true
  end.

(* ================================================================= *)
(** ** [json.dumps] with its default separators and [ensure_ascii] *)

Definition dquote : ascii := ascii_of_N 34.
Definition backslash : ascii := ascii_of_N 92.

Definition hex_digit (n : N) : ascii :=
  (if n <? 10 then ascii_of_N (48 + n) else ascii_of_N (87 + n))%N.

(** The replacement of one character: the short escapes, the printable
    range [' '..'~'] unchanged, anything else as [\u00xx]. *)
Definition escape_char (c : ascii) : string :=
  let n := N_of_ascii c in
  (if n =? 34 then String backslash (String dquote EmptyString)
   else if n =? 92 then String backslash (String backslash EmptyString)
   else if n =? 8 then String backslash "b"
   else if n =? 12 then String backslash "f"
   else if n =? 10 then String backslash "n"
   else if n =? 13 then String backslash "r"
   else if n =? 9 then String backslash "t"
   else if (32 <=? n) && (n <=? 126) then String c EmptyString
   else String backslash
          (String "u" (String "0" (String "0"
             (String (hex_digit (n / 16)) (String (hex_digit (n mod 16))
                EmptyString))))))%N.

Fixpoint escape (s : string) : string :=
  match s with
  | EmptyString => EmptyString
  | String c s' => (escape_char c ++ escape s')%string
  end.

Definition quoted (s : string) : string :=
  String dquote (escape s ++ String dquote EmptyString)%string.

Fixpoint join (sep : string) (l : list string) : string :=
  match l with
  | [] => EmptyString
  | x :: l' => match l' with
               | [] => x
               | _ => (x ++ sep ++ join sep l')%string
               end
  end.

Fixpoint json_dumps (v : json) : string :=
  match v with
  | JNull => "null"
  | JBool true => "true"
  | JBool false => "false"
  | JNum z => NilZero.string_of_int (Z.to_int z)
  | JFloat x => floatstr (double x)
  | JStr s => quoted s
  | JArr l => ("[" ++ join ", " (map json_dumps l) ++ "]")%string
  | JObj kv =>
      ("{" ++ join ", "
              (map (fun p => quoted (fst p) ++ ": " ++ json_dumps (snd p)) kv)
           ++ "}")%string
  end.

(* ================================================================= *)
(** ** [json.loads] *)

Definition is_ws (c : ascii) : bool :=
  let n := N_of_ascii c in
  ((n =? 32) || (n =? 9) || (n =? 10) || (n =? 13))%N.

Fixpoint skip_ws (s : string) : string :=
  match s with
  | EmptyString => EmptyString
  | String c s' => if is_ws c then skip_ws s' else s
  end.

Definition hex_value (c : ascii) : option N :=
  let n := N_of_ascii c in
  (if (48 <=? n) && (n <=? 57) then Some (n - 48)
   else if (97 <=? n) && (n <=? 102) then Some (n - 87)
   else if (65 <=? n) && (n <=? 70) then Some (n - 55)
   else None)%N.

Definition hex4 (a b c d : ascii) : option N :=
  match hex_value a, hex_value b, hex_value c, hex_value d with
  | Some x, Some y, Some z, Some t => Some (((x * 16 + y) * 16 + z) * 16 + t)%N
  | _, _, _, _ => None
  end.

(** The character a one-letter escape stands for. *)
Definition unescape (e : ascii) : option ascii :=
  let n := N_of_ascii e in
  (if n =? 34 then Some dquote
   else if n =? 92 then Some backslash
   else if n =? 47 then Some "/"%char
   else if n =? 98 then Some (ascii_of_N 8)
   else if n =? 102 then Some (ascii_of_N 12)
   else if n =? 110 then Some (ascii_of_N 10)
   else if n =? 114 then Some (ascii_of_N 13)
   else if n =? 116 then Some (ascii_of_N 9)
   else None)%N.

Definition cons_char (c : ascii) (r : option (string * string))
  : option (string * string) :=
  match r with
  | Some (s, rest) => Some (String c s, rest)
  | None => None
  end.

(** The text after an opening quote, up to the closing one (strict mode:
    a raw control character is refused).  A [\u] escape above U+00FF is
    outside the model's characters and is refused as well. *)
Fixpoint scan_string (s : string) : option (string * string) :=
  match s with
  | EmptyString => None
  | String c s1 =>
      if Ascii.eqb c dquote then Some (EmptyString, s1)
      else if Ascii.eqb c backslash then
        match s1 with
        | EmptyString => None
        | String e s2 =>
            if Ascii.eqb e "u" then
              match s2 with
              | String h1 (String h2 (String h3 (String h4 s3))) =>
                  match hex4 h1 h2 h3 h4 with
                  | Some n => if (n <? 256)%N
                              then cons_char (ascii_of_N n) (scan_string s3)
                              else None
                  | None => None
                  end
              | _ => None
              end
            else
              match unescape e with
              | Some ch => cons_char ch (scan_string s2)
              | None => None
              end
        end
      else if (N_of_ascii c <? 32)%N then None
      else cons_char c (scan_string s1)
  end.

(** A fraction or an exponent makes the literal a float. *)
Definition starts_fraction (s : string) : bool :=
  match s with
  | String c _ =>
      let n := N_of_ascii c in ((n =? 46) || (n =? 101) || (n =? 69))%N
  | EmptyString => false
  end.

(** A number: an [int], or a [float] when the literal has a fraction or
    an exponent. *)
Definition parse_number (s : string) : option (json * string) :=
  match read_number s with
  | Some (IntLit z, rest) => Some (JNum z, rest)
  | Some (FloatLit x, rest) =>
      match make_float x with
      | Some y => Some (JFloat y, rest)
      | None => None
      end
  | None => None
  end.

Fixpoint strip_prefix (p s : string) : option string :=
  match p with
  | EmptyString => Some s
  | String a p' =>
      match s with
      | String b s' => if Ascii.eqb a b then strip_prefix p' s' else None
      | EmptyString => None
      end
  end.

(** The three constants the decoder reads as floats. *)
Definition parse_constant (s : string) : option (json * string) :=
  match strip_prefix "NaN" s with
  | Some rest => Some (JFloat float_nan, rest)
  | None =>
  match strip_prefix "Infinity" s with
  | Some rest => Some (JFloat (float_infinity false), rest)
  | None =>
  match strip_prefix "-Infinity" s with
  | Some rest => Some (JFloat (float_infinity true), rest)
  | None => None
  end end end.

(** The scanner: a value at the start of [s] and the text after it.  White
    space is skipped where the decoder skips it; [fuel] bounds the nesting
    and the number of items. *)
Fixpoint parse_value (fuel : nat) (s : string) {struct fuel}
  : option (json * string) :=
  match fuel with
  | O => None
  | S fuel' =>
      match skip_ws s with
      | EmptyString => None
      | String c s1 =>
          if Ascii.eqb c "{" then
            match starts_with "}" (skip_ws s1) with
            | Some s2 => Some (JObj [], s2)
            | None => parse_members fuel' s1 []
            end
          else if Ascii.eqb c "[" then
            match starts_with "]" (skip_ws s1) with
            | Some s2 => Some (JArr [], s2)
            | None => parse_elements fuel' s1 []
            end
          else if Ascii.eqb c dquote then
            match scan_string s1 with
            | Some (str, s2) => Some (JStr str, s2)
            | None => None
            end
          else
            match strip_prefix "true" (String c s1) with
            | Some s2 => Some (JBool true, s2)
            | None =>
            match strip_prefix "false" (String c s1) with
            | Some s2 => Some (JBool false, s2)
            | None =>
            match strip_prefix "null" (String c s1) with
            | Some s2 => Some (JNull, s2)
            | None =>
            match parse_number (String c s1) with
            | Some r => Some r
            | None => parse_constant (String c s1)
            end end end end
      end
  end

with parse_elements (fuel : nat) (s : string) (acc : list json) {struct fuel}
  : option (json * string) :=
  match fuel with
  | O => None
  | S fuel' =>
      match parse_value fuel' s with
      | Some (v, s1) =>
          match starts_with "," (skip_ws s1) with
          | Some s2 => parse_elements fuel' s2 (acc ++ [v])
          | None =>
              match starts_with "]" (skip_ws s1) with
              | Some s2 => Some (JArr (acc ++ [v]), s2)
              | None => None
              end
          end
      | None => None
      end
  end

with parse_members (fuel : nat) (s : string) (acc : list (string * json))
       {struct fuel} : option (json * string) :=
  match fuel with
  | O => None
  | S fuel' =>
      match starts_with dquote (skip_ws s) with
      | Some s1 =>
          match scan_string s1 with
          | Some (k, s2) =>
              match starts_with ":" (skip_ws s2) with
              | Some s3 =>
                  match parse_value fuel' s3 with
                  | Some (v, s4) =>
                      match starts_with "," (skip_ws s4) with
                      | Some s5 => parse_members fuel' s5 (dict_set acc k v)
                      | None =>
                          match starts_with "}" (skip_ws s4) with
                          | Some s5 => Some (JObj (dict_set acc k v), s5)
                          | None => None
                          end
                      end
                  | None => None
                  end
              | None => None
              end
          | None => None
          end
      | None => None
      end
  end.

(** [json.loads(s)]: one value, then nothing but white space. *)
Definition json_loads (s : string) : outcome json :=
  match parse_value (S (String.length s)) s with
  | Some (v, rest) =>
      match skip_ws rest with
      | EmptyString => Ret v
      | _ => Raise JSONDecodeError
      end
  | None => Raise JSONDecodeError
  end.

(* ================================================================= *)
(** ** The world the handler runs in *)

(** One [print] statement of the source each; the line is the one in
    [main.py]. *)
Inductive event : Type :=
| PrintStarting                                  (* line 79 *)
| PrintMissingFloodlight                         (* line 81 *)
| PrintAuthorized                                (* line 86 *)
| PrintRequest (profile_id body : json)          (* line 105 *)
| PrintResponse (profile_id body : json)         (* line 107 *)
| PrintBatchInserted                             (* line 109 *)
| PrintErrorInLine (conversion : string)         (* line 116 *)
| PrintErrorDetail (code message : json)         (* line 117 *)
| PrintLineInserted (gclid : string)             (* line 119 *)
| PrintFinished                                  (* line 120 *)
| PrintPayload (json_payload : json)             (* line 133 *)
| PrintMissingValues                             (* line 153 *)
| PrintNoConversionData.                         (* line 155 *)

(** An upload call: [batchinsert(profileId=..., body=...).execute()]. *)
Definition request : Type := (json * json)%type.

Record world : Type := World {
  calls : list request;
  stdout : list event
}.

Definition initial : world := World [] [].

(** What [request.execute()] does on the call number [n] (from 0). *)
Definition service : Type := nat -> json -> json -> outcome json.

(** A computation: it may print, call the API and raise. *)
Definition M (A : Type) : Type := world -> outcome A * world.

Definition ret {A : Type} (a : A) : M A := fun w => (Ret a, w).

Definition raise {A : Type} (e : exn) : M A := fun w => (Raise e, w).

Definition bind {A B : Type} (m : M A) (k : A -> M B) : M B :=
  fun w => match m w with
           | (Ret a, w') => k a w'
           | (Raise e, w') => (Raise e, w')
           end.

Definition lift {A : Type} (o : outcome A) : M A := fun w => (o, w).

Definition print (e : event) : M unit :=
  fun w => (Ret tt, World (calls w) (stdout w ++ [e])).

Definition execute (svc : service) (profile_id body : json) : M json :=
  fun w => (svc (List.length (calls w)) profile_id body,
            World (calls w ++ [(profile_id, body)]) (stdout w)).

(** [try: m except: h] with a bare [except]. *)
Definition try_except {A : Type} (m h : M A) : M A :=
  fun w => match m w with
           | (Ret a, w') => (Ret a, w')
           | (Raise _, w') => h w'
           end.

Declare Scope py_scope.
Delimit Scope py_scope with py.
Notation "x <- m ;; k" := (bind m (fun x => k))
  (at level 61, m at next level, right associativity) : py_scope.
Notation "m ;; k" := (bind m (fun _ => k))
  (at level 61, right associativity) : py_scope.
Local Open Scope py_scope.

Fixpoint for_each {A : Type} (l : list A) (body : A -> M unit) : M unit :=
  match l with
  | [] => ret tt
  | x :: l' => body x ;; for_each l' body
  end.

(* ================================================================= *)
(** ** [upload_data] *)

Definition lit (s : string) : string :=
  String dquote (s ++ String dquote EmptyString)%string.

(** The opening of the request text (lines 88 and 122). *)
Definition request_head : string :=
  ("{" ++ lit "kind" ++ ": " ++ lit "dfareporting#conversionsBatchInsertRequest"
       ++ ", " ++ lit "conversions" ++ ": [")%string.

(** The dict of lines 91-100; the values are read in display order. *)
Definition conversion_dict (row fl_activity_id fl_configuration_id : json)
  : outcome json :=
  match subscript row "conversionVisitExternalClickId" with
  | Raise e => Raise e
  | Ret gclid =>
  match subscript row "conversionId" with
  | Raise e => Raise e
  | Ret ordinal =>
  match subscript row "conversionTimestampMicros" with
  | Raise e => Raise e
  | Ret timestamp =>
  match subscript row "conversionRevenue" with
  | Raise e => Raise e
  | Ret value =>
  match subscript row "conversionQuantity" with
  | Raise e => Raise e
  | Ret quantity =>
      Ret (JObj [("kind", JStr "dfareporting#conversion");
                 ("gclid", gclid);
                 ("floodlightActivityId", fl_activity_id);
                 ("floodlightConfigurationId", fl_configuration_id);
                 ("ordinal", ordinal);
                 ("timestampMicros", timestamp);
                 ("value", value);
                 ("quantity", quantity)])
  end end end end end.

(** The [for row in ...] loop of lines 90-102. *)
Fixpoint append_conversions (window : list json)
    (fl_activity_id fl_configuration_id : json) (all_conversions : string)
  : outcome string :=
  match window with
  | [] => Ret all_conversions
  | row :: window' =>
      match conversion_dict row fl_activity_id fl_configuration_id with
      | Raise e => Raise e
      | Ret d =>
          append_conversions window' fl_activity_id fl_configuration_id
            (all_conversions ++ json_dumps d ++ ",")%string
      end
  end.

(** Lines 90-104: the body handed to [batchinsert] for one window. *)
Definition window_body (window : list json)
    (fl_activity_id fl_configuration_id : json) (all_conversions : string)
  : outcome json :=
  match append_conversions window fl_activity_id fl_configuration_id
          all_conversions with
  | Raise e => Raise e
  | Ret text => json_loads (drop_last text ++ "]}")%string
  end.

(** The body of the inner [for] (lines 116-117). *)
Definition report_entry (line error : json) : M unit :=
  conversion <- lift (subscript line "conversion") ;;
  print (PrintErrorInLine (json_dumps conversion)) ;;
  code <- lift (subscript error "code") ;;
  message <- lift (subscript error "message") ;;
  print (PrintErrorDetail code message).

(** The body of the [try] (lines 114-117). *)
Definition report_errors (line : json) : M unit :=
  errors <- lift (subscript line "errors") ;;
  if truthy errors then
    errors' <- lift (subscript line "errors") ;;
    entries <- lift (py_iter errors') ;;
    for_each entries (report_entry line)
  else ret tt.

(** The handler of the bare [except] (line 119). *)
Definition report_inserted (line : json) : M unit :=
  gclid <- lift (subscript line "gclid") ;;
  match gclid with
  | JStr s => print (PrintLineInserted s)
  | _ => raise TypeError
  end.

(** Lines 113-119. *)
Definition report_line (line : json) : M unit :=
  try_except (report_errors line) (report_inserted line).

(** Lines 108-119. *)
Definition report_response (response : json) : M unit :=
  has_failures <- lift (subscript response "hasFailures") ;;
  if negb (truthy has_failures) then print PrintBatchInserted
  else
    status <- lift (subscript response "status") ;;
    lines <- lift (py_iter status) ;;
    for_each lines report_line.

(** One turn of the [while] loop, lines 90-120. *)
Definition upload_window (svc : service) (rows : list json)
    (profile_id fl_configuration_id fl_activity_id : json)
    (currentrow : nat) (all_conversions : string) : M unit :=
  body <- lift (window_body
                  (slice rows currentrow
                     (Nat.min (currentrow + 100) (List.length rows)))
                  fl_activity_id fl_configuration_id all_conversions) ;;
  print (PrintRequest profile_id body) ;;
  response <- execute svc profile_id body ;;
  print (PrintResponse profile_id body) ;;
  report_response response ;;
  print PrintFinished.

(** The [while currentrow < len(rows)] loop, lines 89-122. *)
Equations? upload_loop (svc : service) (rows : list json)
    (profile_id fl_configuration_id fl_activity_id : json)
    (currentrow : nat) (all_conversions : string) (w : world)
  : outcome unit * world by wf (List.length rows - currentrow) lt :=
  upload_loop svc rows profile_id fl_configuration_id fl_activity_id
      currentrow all_conversions w
    with lt_dec currentrow (List.length rows) => {
    | left _
        with upload_window svc rows profile_id fl_configuration_id
               fl_activity_id currentrow all_conversions w => {
        | (Ret _, w') =>
            upload_loop svc rows profile_id fl_configuration_id
              fl_activity_id (currentrow + 100) request_head w'
        | (Raise e, w') => (Raise e, w') }
    | right _ => (Ret tt, w) }.
Proof. lia. Qed.

(** What [len(rows)], the slices and the inner [for] see of [rows]: a list
    as it is, a [str] as its characters; a dict that is not empty cannot
    be sliced and a number has no length. *)
Definition py_rows (rows : json) : outcome (list json) :=
  match rows with
  | JArr l => Ret l
  | JStr s => Ret (chars s)
  | JObj [] => Ret []
  | _ => Raise TypeError
  end.

Section Handler.

(** The outcome of [setup()]: the API client, or the error raised while
    the credentials or the client are built. *)
Variable setup : outcome service.

Definition upload_data
    (rows profile_id fl_configuration_id fl_activity_id : json) : M unit :=
  print PrintStarting ;;
  if negb (truthy fl_activity_id) || negb (truthy fl_configuration_id) then
    print PrintMissingFloodlight
  else
    svc <- lift setup ;;
    print PrintAuthorized ;;
    l <- lift (py_rows rows) ;;
    upload_loop svc l profile_id fl_configuration_id fl_activity_id
      0 request_head.

(** [d[k] if k in d else None]. *)
Definition get_or_none (d : json) (k : string) : M json :=
  present <- lift (contains d k) ;;
  if (present : bool) then lift (subscript d k) else ret JNull.

(** [main] from line 133 on, that is after the payload has been decoded
    into [json_payload]. *)
Definition main (json_payload : json) : M unit :=
  print (PrintPayload json_payload) ;;
  data <- lift (subscript json_payload "data") ;;
  conversion_data <- get_or_none data "conversions" ;;
  config <- get_or_none data "config" ;;
  if truthy conversion_data then
    profile_id <- get_or_none config "profile_id" ;;
    floodlight_activity_id <- get_or_none config "floodlight_activity_id" ;;
    floodlight_configuration_id <-
      get_or_none config "floodlight_configuration_id" ;;
    if truthy profile_id && truthy floodlight_activity_id
       && truthy floodlight_configuration_id
    then upload_data conversion_data profile_id
           floodlight_configuration_id floodlight_activity_id
    else print PrintMissingValues
  else print PrintNoConversionData.

End Handler.

(* ================================================================= *)
(** ** Notions used to state the properties *)

(** The fuel the scanner needs for a value. *)
Fixpoint json_size (v : json) : nat :=
  match v with
  | JArr l => S (list_sum (map (fun x => S (json_size x)) l))
  | JObj kv => S (list_sum (map (fun p => S (json_size (snd p))) kv))
  | _ => 1
  end.

(** What may follow a value in a text: not a character that would extend
    a number. *)
Definition ends_number (rest : string) : bool :=
  match rest with
  | String c _ => negb (is_digit c) && negb (starts_fraction rest)
  | EmptyString => true
  end.

(** The text [t] is scanned as the value [v], whatever follows it, with
    fuel [n] or more. *)
Definition parses_as (t : string) (v : json) (n : nat) : Prop :=
  forall fuel rest,
    n <= fuel -> ends_number rest = true ->
    parse_value fuel (t ++ rest)%string = Some (v, rest).

(** The separator between the items of an array: [", "] as [json.dumps]
    writes it, [","] as line 102 does. *)
Definition item_sep (space : bool) : string := if space then ", " else ",".

Definition array_text (space : bool) (l : list json) : string :=
  ("[" ++ join (item_sep space) (map json_dumps l) ++ "]")%string.

(** A member of an object text: its key, the text of its value, the value
    and the fuel the value needs. *)
Definition member : Type := (string * string * json * nat)%type.
Definition member_text (m : member) : string :=
  let '(k, t, _, _) := m in (quoted k ++ ": " ++ t)%string.
Definition member_item (m : member) : string * json :=
  let '(k, _, v, _) := m in (k, v).
Definition member_fuel (m : member) : nat :=
  let '(_, _, _, n) := m in S n.
Definition member_parses (m : member) : Prop :=
  let '(_, t, v, n) := m in parses_as t v n.

(** The first character of the text of a value. *)
Definition value_start (c : ascii) : bool :=
  is_digit c
  || Ascii.eqb c "-" || Ascii.eqb c dquote || Ascii.eqb c "{"
  || Ascii.eqb c "[" || Ascii.eqb c "t" || Ascii.eqb c "f" || Ascii.eqb c "n"
  || Ascii.eqb c "N" || Ascii.eqb c "I".

(** [k] can be read from [v]. *)
Definition has_key (v : json) (k : string) : bool :=
  match subscript v k with
  | Ret _ => true
  | Raise _ => false
  end.

(** The five fields line 91-100 read from a row. *)
Definition record_fields : list string :=
  ["conversionVisitExternalClickId"; "conversionId";
   "conversionTimestampMicros"; "conversionRevenue"; "conversionQuantity"].

(** A conversion record: a Python dict that has the five fields. *)
Definition conversion_record (row : json) : bool :=
  unique_keys row && forallb (has_key row) record_fields.

(** The keys of a conversion object, in the order they are sent. *)
Definition conversion_keys : list string :=
  ["kind"; "gclid"; "floodlightActivityId"; "floodlightConfigurationId";
   "ordinal"; "timestampMicros"; "value"; "quantity"].

(** The conversion object [c] carries the fields of [row] and the two
    floodlight ids. *)
Definition carries (fl_activity_id fl_configuration_id row c : json) : Prop :=
  (exists kv, c = JObj kv /\ map fst kv = conversion_keys)
  /\ subscript c "kind" = Ret (JStr "dfareporting#conversion")
  /\ subscript c "gclid" = subscript row "conversionVisitExternalClickId"
  /\ subscript c "floodlightActivityId" = Ret fl_activity_id
  /\ subscript c "floodlightConfigurationId" = Ret fl_configuration_id
  /\ subscript c "ordinal" = subscript row "conversionId"
  /\ subscript c "timestampMicros" = subscript row "conversionTimestampMicros"
  /\ subscript c "value" = subscript row "conversionRevenue"
  /\ subscript c "quantity" = subscript row "conversionQuantity".

(** The request body of a batch of conversion objects. *)
Definition batch_request (conversions : list json) : json :=
  JObj [("kind", JStr "dfareporting#conversionsBatchInsertRequest");
        ("conversions", JArr conversions)].

(** The number of turns of the [while] loop on [n] rows. *)
Definition window_count (n : nat) : nat := (n + 99) / 100.

(** The slice the turn number [k] (from 0) goes through. *)
Definition window (rows : list json) (k : nat) : list json :=
  slice rows (100 * k) (Nat.min (100 * k + 100) (List.length rows)).

Definition windows (rows : list json) : list (list json) :=
  map (window rows) (seq 0 (window_count (List.length rows))).

(** The number of conversions in a submitted request. *)
Definition batch_size (call : request) : nat :=
  match subscript (snd call) "conversions" with
  | Ret (JArr l) => List.length l
  | _ => 0
  end.

(** A computation that submits nothing. *)
Definition quiet {A : Type} (m : M A) : Prop :=
  forall w, calls (snd (m w)) = calls w.

(** A response the walk of lines 108-119 gets through. *)
Definition reports_cleanly (response : json) : Prop :=
  forall w, fst (report_response response w) = Ret tt.

(** The conversion objects of the rows that yield one. *)
Definition conversions_of (fl_activity_id fl_configuration_id : json)
    (window : list json) : list json :=
  flat_map (fun row =>
              match conversion_dict row fl_activity_id fl_configuration_id with
              | Ret c => [c]
              | Raise _ => []
              end) window.

(** The turn number [k] (from 0) of the [while] loop. *)
Definition turn (svc : service) (rows : list json)
    (profile_id fl_configuration_id fl_activity_id : json) (k : nat)
  : M unit :=
  upload_window svc rows profile_id fl_configuration_id fl_activity_id
    (100 * k) request_head.

(** The submitted request [call] is the one built for the window [k]. *)
Definition built_for (rows : list json)
    (profile_id fl_configuration_id fl_activity_id : json)
    (call : request) (k : nat) : Prop :=
  fst call = profile_id
  /\ window_body (window rows k) fl_activity_id fl_configuration_id
       request_head = Ret (snd call).

(** The value of the field [k] of [v], [None] when it cannot be read. *)
Definition field (v : json) (k : string) : json :=
  match subscript v k with
  | Ret x => x
  | Raise _ => JNull
  end.

(** The two lines printed for one error entry (lines 116-117). *)
Definition error_report (conversion entry : json) : list event :=
  [PrintErrorInLine (json_dumps conversion);
   PrintErrorDetail (field entry "code") (field entry "message")].

(** [w] after the events [es] have been printed. *)
Definition printed (w : world) (es : list event) : world :=
  World (calls w) (stdout w ++ es).

(** The decoded Pub/Sub message that carries [rows] and the three ids. *)
Definition pubsub_payload (rows : list json)
    (profile_id floodlight_activity_id floodlight_configuration_id : json)
  : json :=
  JObj [("data",
         JObj [("conversions", JArr rows);
               ("config",
                JObj [("profile_id", profile_id);
                      ("floodlight_activity_id", floodlight_activity_id);
                      ("floodlight_configuration_id",
                       floodlight_configuration_id)])])].

(* ================================================================= *)
(** ** Sample inputs *)

Definition sample_row (gclid : string) (ordinal : Z) : json :=
  JObj [("conversionVisitExternalClickId", JStr gclid);
        ("conversionId", JNum ordinal);
        ("conversionTimestampMicros", JNum 1617235200000000);
        ("conversionRevenue", JNum 25);
        ("conversionQuantity", JNum 1)].

Definition sample_rows (n : nat) : list json :=
  map (fun i => sample_row "Cj0KCQjw" (Z.of_nat i)) (seq 0 n).

Definition response_ok : json := JObj [("hasFailures", JBool false)].

(** A service that accepts every batch. *)
Definition service_ok : service := fun _ _ _ => Ret response_ok.

(** A service whose second call fails in transport. *)
Definition service_fails_second : service :=
  fun n _ _ => if Nat.eqb n 1 then Raise (RemoteError "HttpError 503")
               else Ret response_ok.

(** A status line as the API returns it for an accepted conversion: it
    has neither [errors] nor [gclid] at its top level. *)
Definition status_accepted : json :=
  JObj [("kind", JStr "dfareporting#conversionStatus");
        ("conversion",
         JObj [("kind", JStr "dfareporting#conversion");
               ("gclid", JStr "Cj0KCQjw")])].

(** A status line with an error entry and neither [conversion] nor
    [gclid]. *)
Definition status_bare_error : json :=
  JObj [("errors",
         JArr [JObj [("code", JStr "INVALID_ARGUMENT");
                     ("message", JStr "Floodlight not found")]])].

(** A payload with conversions and no [config]. *)
Definition payload_without_config : json :=
  JObj [("data", JObj [("conversions", JArr (sample_rows 1))])].

(** The response reports failures and [lines] is its status list, as the
    walk of lines 111-112 reads it. *)
Definition failed_lines (response : json) (lines : list json) : Prop :=
  exists has_failures status,
    subscript response "hasFailures" = Ret has_failures
    /\ truthy has_failures = true
    /\ subscript response "status" = Ret status
    /\ py_iter status = Ret lines.

(** An error entry from which a code and a message can be read. *)
Definition error_entry (entry : json) : bool :=
  has_key entry "code" && has_key entry "message".

(** A response with failures: a rejected conversion, an accepted one that
    carries its click id at the top level, and another rejected one. *)
Definition response_mixed : json :=
  JObj [("hasFailures", JBool true);
        ("status",
         JArr [JObj [("conversion", JObj [("gclid", JStr "Cj0KCQjw")]);
                     ("errors",
                      JArr [JObj [("code", JStr "NOT_FOUND");
                                  ("message", JStr "Floodlight not found")]])];
               JObj [("gclid", JStr "EAIaIQob")];
               JObj [("conversion", JObj [("gclid", JStr "CjwKCAjw")]);
                     ("errors",
                      JArr [JObj [("code", JStr "INVALID_ARGUMENT");
                                  ("message", JStr "Bad timestamp")];
                            JObj [("code", JStr "PERMISSION_DENIED");
                                  ("message", JStr "No access")]])]])].

(** A response with failures whose only line has an error entry and a
    click id, and no [conversion]. *)
Definition response_no_conversion : json :=
  JObj [("hasFailures", JBool true);
        ("status",
         JArr [JObj [("gclid", JStr "EAIaIQob");
                     ("errors",
                      JArr [JObj [("code", JStr "NOT_FOUND");
                                  ("message", JStr "Floodlight not found")]])]])].

(* ================================================================= *)
(** ** Notions for the properties of the whole handler *)

(** What the walk prints for a status line it gets through: the click id
    when no [errors] can be read, nothing when [errors] is empty, the two
    lines of each entry otherwise. *)
Inductive line_prints (line : json) : list event -> Prop :=
| prints_inserted e gclid :
    subscript line "errors" = Raise e ->
    subscript line "gclid" = Ret (JStr gclid) ->
    line_prints line [PrintLineInserted gclid]
| prints_nothing errors :
    subscript line "errors" = Ret errors ->
    truthy errors = false ->
    line_prints line []
| prints_errors errors entries conversion :
    subscript line "errors" = Ret errors ->
    truthy errors = true ->
    py_iter errors = Ret entries ->
    subscript line "conversion" = Ret conversion ->
    forallb error_entry entries = true ->
    line_prints line (flat_map (error_report conversion) entries).

(** Rows that are no list and on which the loop cannot start or cannot
    read a record: [None], a boolean, a number, a non-empty [str]. *)
Definition not_rows (rows : json) : bool :=
  match rows with
  | JNull | JBool _ | JNum _ | JFloat _ => true
  | JStr s => negb (String.eqb s "")
  | _ => false
  end.

(** The decoded payload has conversions and a [config] dict with the
    three identifiers, none of them empty. *)
Definition configured (json_payload conversion_data p fla flc : json)
  : Prop :=
  exists data config,
    subscript json_payload "data" = Ret (JObj data)
    /\ dict_get data "conversions" = Some conversion_data
    /\ dict_get data "config" = Some (JObj config)
    /\ dict_get config "profile_id" = Some p
    /\ dict_get config "floodlight_activity_id" = Some fla
    /\ dict_get config "floodlight_configuration_id" = Some flc
    /\ truthy conversion_data = true
    /\ truthy p = true /\ truthy fla = true /\ truthy flc = true.

(** The four lines a turn prints around a batch that is accepted. *)
Definition accepted_report (p body : json) : list event :=
  [PrintRequest p body; PrintResponse p body; PrintBatchInserted;
   PrintFinished].

(** A row without its quantity. *)
Definition sample_bad_row : json :=
  JObj [("conversionVisitExternalClickId", JStr "Cj0KCQjw");
        ("conversionId", JNum 7);
        ("conversionTimestampMicros", JNum 1617235200000000);
        ("conversionRevenue", JNum 25)].

(** A service whose second response lists an accepted conversion the way
    the API does. *)
Definition service_accepts_second : service :=
  fun n _ _ =>
    if Nat.eqb n 1
    then Ret (JObj [("hasFailures", JBool true);
                    ("status", JArr [status_accepted])])
    else Ret response_ok.

(** The value of [d[k] if k in d else None]. *)
Definition key_or_none (d : json) (k : string) : outcome json :=
  match contains d k with
  | Raise e => Raise e
  | Ret true => subscript d k
  | Ret false => Ret JNull
  end.

(** A payload whose [config] lacks the floodlight activity id. *)
Definition payload_without_activity : json :=
  JObj [("data",
         JObj [("conversions", JArr (sample_rows 1));
               ("config",
                JObj [("profile_id", JStr "1234");
                      ("floodlight_configuration_id", JStr "5678")])])].

(** A payload with an empty list of conversions and no [config]. *)
Definition payload_without_conversions : json :=
  JObj [("data", JObj [("conversions", JArr [])])].

(** A status line whose second error entry has no message. *)
Definition status_half_entry : json :=
  JObj [("conversion", JObj [("gclid", JStr "CjwKCAjw")]);
        ("gclid", JStr "CjwKCAjw");
        ("errors",
         JArr [JObj [("code", JStr "INVALID_ARGUMENT");
                     ("message", JStr "Bad timestamp")];
               JObj [("code", JStr "PERMISSION_DENIED")];
               JObj [("code", JStr "NOT_FOUND");
                     ("message", JStr "Floodlight not found")]])].

(** A response with failures: a rejected conversion, a line with an empty
    list of errors and a line with its click id only. *)
Definition response_three_kinds : json :=
  JObj [("hasFailures", JBool true);
        ("status",
         JArr [JObj [("conversion", JObj [("gclid", JStr "Cj0KCQjw")]);
                     ("errors",
                      JArr [JObj [("code", JStr "NOT_FOUND");
                                  ("message", JStr "Floodlight not found")]])];
               JObj [("conversion", JObj [("gclid", JStr "CjwKCAjw")]);
                     ("errors", JArr [])];
               JObj [("gclid", JStr "EAIaIQob")]])].

(** A service that rejects part of every batch. *)
Definition service_rejects_some : service :=
  fun _ _ _ => Ret response_three_kinds.

(** A row whose revenue is the float [25.99] and whose quantity is the
    float [1.5]. *)
Definition sample_float_row : json :=
  JObj [("conversionVisitExternalClickId", JStr "EAIaIQob");
        ("conversionId", JNum 42);
        ("conversionTimestampMicros", JNum 1617235200000000);
        ("conversionRevenue", JFloat (pyfloat_of_decimal 2599 (-2)));
        ("conversionQuantity", JFloat (pyfloat_of_decimal 15 (-1)))].

(** A status line with a conversion and one error entry. *)
Definition status_rejected : json :=
  JObj [("conversion", JObj [("gclid", JStr "CjwKCAjw")]);
        ("errors", JArr [JObj [("code", JStr "X"); ("message", JStr "Y")]])].

(** A response with failures whose first line is an accepted conversion
    as the API lists it and whose second line is a rejected one. *)
Definition response_accepted_rejected : json :=
  JObj [("hasFailures", JBool true);
        ("status", JArr [status_accepted; status_rejected])].

(** A response with failures: a line with its click id at the top level,
    an accepted conversion as the API lists it, and another line with its
    click id. *)
Definition response_accepted_between : json :=
  JObj [("hasFailures", JBool true);
        ("status",
         JArr [JObj [("gclid", JStr "EAIaIQob")];
               status_accepted;
               JObj [("gclid", JStr "CjwKCAjw")]])].

(* ================================================================= *)
(** * Strings *)

Lemma append_assoc (a b c : string) :
  ((a ++ b) ++ c = a ++ (b ++ c))%string.
Proof. induction a as [|x a IH]; simpl; [reflexivity | now rewrite IH]. Qed.

Lemma append_nil_r (a : string) : (a ++ "")%string = a.
Proof. induction a as [|x a IH]; simpl; [reflexivity | now rewrite IH]. Qed.

Lemma length_append (a b : string) :
  String.length (a ++ b) = String.length a + String.length b.
Proof. induction a as [|x a IH]; simpl; [reflexivity | now rewrite IH]. Qed.

Lemma drop_last_snoc (a : string) (c : ascii) :
  drop_last (a ++ String c "") = a.
Proof.
  induction a as [|x a IH]; simpl; [reflexivity |].
  rewrite IH. destruct a; reflexivity.
Qed.

Ltac each_char c := destruct c as [[] [] [] [] [] [] [] []].

(* ================================================================= *)
(** * The scanner on the texts [json.dumps] writes *)

Lemma parse_value_space fuel s :
  parse_value fuel (String " " s) = parse_value fuel s.
Proof. destruct fuel; reflexivity. Qed.

Lemma parse_elements_space fuel s acc :
  parse_elements fuel (String " " s) acc = parse_elements fuel s acc.
Proof. destruct fuel; simpl; [reflexivity |]. now rewrite parse_value_space. Qed.

Lemma parse_members_space fuel s acc :
  parse_members fuel (String " " s) acc = parse_members fuel s acc.
Proof. destruct fuel; reflexivity. Qed.

(** ** Strings *)

Lemma scan_string_escape_char c s :
  scan_string (escape_char c ++ s) = cons_char c (scan_string s).
Proof. each_char c; reflexivity. Qed.

Lemma scan_string_escape s rest :
  scan_string (escape s ++ String dquote rest) = Some (s, rest).
Proof.
  induction s as [|c s IH]; simpl.
  - reflexivity.
  - rewrite append_assoc, scan_string_escape_char, IH. reflexivity.
Qed.

Lemma quoted_append k rest :
  (quoted k ++ rest)%string = String dquote (escape k ++ String dquote rest).
Proof. unfold quoted. simpl. now rewrite append_assoc. Qed.
(** ** Numbers followed by more text *)

Lemma ends_number_digit c rest :
  ends_number (String c rest) = true -> is_digit c = false.
Proof.
  unfold ends_number. intros H. apply andb_prop in H as [H _].
  now apply negb_true_iff in H.
Qed.

Lemma ends_number_fraction rest :
  ends_number rest = true -> starts_fraction rest = false.
Proof.
  destruct rest as [|c rest]; [reflexivity |].
  unfold ends_number. intros H. apply andb_prop in H as [_ H].
  now apply negb_true_iff in H.
Qed.

Lemma span_digits_end rest :
  ends_number rest = true -> span_digits rest = (EmptyString, rest).
Proof.
  destruct rest as [|c rest]; [reflexivity |].
  intros H. simpl. now rewrite (ends_number_digit _ _ H).
Qed.

Lemma span_digits_append t rest :
  ends_number rest = true ->
  span_digits (t ++ rest)
  = (fst (span_digits t), (snd (span_digits t) ++ rest)%string).
Proof.
  intros Hrest. induction t as [|c t IH]; simpl.
  - now apply span_digits_end.
  - destruct (is_digit c); [| reflexivity].
    rewrite IH. now destruct (span_digits t).
Qed.

Lemma scan_integer_append t rest :
  ends_number rest = true ->
  scan_integer (t ++ rest)
  = (fst (scan_integer t), (snd (scan_integer t) ++ rest)%string).
Proof.
  intros Hrest. destruct t as [|c t].
  - destruct rest as [|c rest]; [reflexivity |].
    pose proof (ends_number_digit _ _ Hrest) as Hc.
    cbn [append scan_integer fst snd].
    assert (E : Ascii.eqb c "0" = false)
      by (each_char c; try discriminate Hc; reflexivity).
    rewrite E. simpl. now rewrite Hc.
  - cbn [append scan_integer]. destruct (Ascii.eqb c "0"); [reflexivity |].
    apply (span_digits_append (String c t) rest Hrest).
Qed.

Lemma scan_fraction_end rest :
  ends_number rest = true -> scan_fraction rest = (None, rest).
Proof.
  intros H. apply ends_number_fraction in H.
  destruct rest as [|c rest]; [reflexivity |].
  unfold scan_fraction. simpl in *.
  each_char c; try discriminate H; reflexivity.
Qed.

Lemma scan_fraction_append r rest :
  ends_number rest = true ->
  scan_fraction (r ++ rest)
  = (fst (scan_fraction r), (snd (scan_fraction r) ++ rest)%string).
Proof.
  intros Hrest. destruct r as [|c r].
  - now apply scan_fraction_end.
  - unfold scan_fraction. cbn [append starts_with].
    destruct (Ascii.eqb c "."); [| reflexivity].
    rewrite (span_digits_append r rest Hrest).
    destruct (span_digits r) as [ds r']. simpl.
    now destruct ds.
Qed.

Lemma scan_exponent_end rest :
  ends_number rest = true -> scan_exponent rest = (None, rest).
Proof.
  intros H. apply ends_number_fraction in H.
  destruct rest as [|c rest]; [reflexivity |].
  unfold scan_exponent. simpl in H.
  each_char c; try discriminate H; reflexivity.
Qed.

(** An exponent that ends the text is read the same when more text
    follows. *)
Lemma scan_exponent_append r exp rest :
  scan_exponent r = (exp, EmptyString) ->
  ends_number rest = true ->
  scan_exponent (r ++ rest) = (exp, rest).
Proof.
  intros H Hrest. destruct r as [|c r].
  - injection H as <-. now apply scan_exponent_end.
  - unfold scan_exponent in *. cbn [append].
    destruct (Ascii.eqb c "e" || Ascii.eqb c "E"); [| discriminate H].
    destruct r as [|c' r].
    + discriminate H.
    + cbn [append].
      destruct (Ascii.eqb c' "-");
        [| destruct (Ascii.eqb c' "+")];
        match type of H with
        | context [span_digits ?s] =>
            change (span_digits (String c' (r ++ rest)))
              with (span_digits (String c' r ++ rest));
            rewrite (span_digits_append s rest Hrest);
            destruct (span_digits s) as [ds r']
        end;
        simpl fst; simpl snd;
        (destruct ds; [discriminate H |]);
        injection H as <- ->; reflexivity.
Qed.

(** A number that ends the text is read the same when more text
    follows. *)
Lemma read_unsigned_append neg t n rest :
  read_unsigned neg t = Some (n, EmptyString) ->
  ends_number rest = true ->
  read_unsigned neg (t ++ rest) = Some (n, rest).
Proof.
  intros H Hrest. unfold read_unsigned in *.
  rewrite (scan_integer_append t rest Hrest).
  destruct (scan_integer t) as [ds r0]. simpl fst; simpl snd.
  destruct ds as [|d ds]; [discriminate H |].
  rewrite (scan_fraction_append r0 rest Hrest).
  destruct (scan_fraction r0) as [frac r1] eqn:Ef. simpl fst; simpl snd.
  destruct (scan_exponent r1) as [exp r2] eqn:Ee.
  destruct frac as [fd|], exp as [ex|];
    injection H as <- Hr; subst;
    try (rewrite (scan_exponent_append _ _ rest Ee Hrest); reflexivity).
  assert (r1 = EmptyString) by (now injection Ef as <-). subst r1.
  simpl append. now rewrite (scan_exponent_end rest Hrest).
Qed.

Lemma read_number_append t n rest :
  read_number t = Some (n, EmptyString) ->
  ends_number rest = true ->
  read_number (t ++ rest) = Some (n, rest).
Proof.
  intros H Hrest. unfold read_number in *.
  destruct t as [|c t]; [discriminate H |].
  cbn [append starts_with] in *.
  destruct (Ascii.eqb c "-").
  - now apply read_unsigned_append.
  - now apply (read_unsigned_append false (String c t)).
Qed.

(** A number starts with a digit or a minus sign. *)
Lemma read_number_start t r :
  read_number t = Some r ->
  exists c s, t = String c s /\ (is_digit c || Ascii.eqb c "-") = true.
Proof.
  intros H. destruct t as [|c t]; [discriminate H |].
  exists c, t. split; [reflexivity |].
  unfold read_number in H. cbn [starts_with] in H.
  destruct (Ascii.eqb c "-"); [apply orb_true_r |].
  unfold read_unsigned in H. cbn [scan_integer] in H.
  destruct (Ascii.eqb c "0") eqn:E0.
  - apply Ascii.eqb_eq in E0. now subst c.
  - simpl span_digits in H. destruct (is_digit c); [reflexivity |].
    discriminate H.
Qed.

(** ** Integers *)

Lemma span_digits_uint d rest :
  match rest with String c _ => is_digit c = false | EmptyString => True end ->
  span_digits (NilEmpty.string_of_uint d ++ rest)
  = (NilEmpty.string_of_uint d, rest).
Proof.
  intros Hrest. induction d; simpl; try (rewrite IHd; reflexivity).
  destruct rest as [|c rest]; simpl; [reflexivity | now rewrite Hrest].
Qed.

Lemma string_of_uint_nonnil d :
  d <> Nil -> NilZero.string_of_uint d = NilEmpty.string_of_uint d.
Proof. destruct d; simpl; congruence. Qed.

Lemma string_of_uint_digit d :
  d <> Nil ->
  exists c s, NilEmpty.string_of_uint d = String c s /\ is_digit c = true.
Proof. destruct d; simpl; try congruence; intros _; eauto. Qed.

(** The decimal writing of an integer is in normal form. *)
Lemma to_int_normal z :
  exists d, d <> Nil /\ unorm d = d
            /\ (Z.to_int z = Pos d \/ Z.to_int z = Neg d).
Proof.
  pose proof (DecimalZ.to_of (Z.to_int z)) as H.
  rewrite DecimalZ.of_to in H.
  destruct (Z.to_int z) as [d|d]; simpl in H.
  - exists d. injection H as H. repeat split; auto.
    rewrite H. apply unorm_nonnil.
  - assert (Hd : nzhead d = d /\ d <> Nil).
    { destruct (nzhead d) eqn:E; try discriminate H; injection H as H;
        (split; congruence). }
    destruct Hd as [Hz Hd]. exists d. repeat split; auto.
    rewrite <- Hz at 2. apply unorm_nzhead. congruence.
Qed.

(** A normal form that starts with a zero is zero. *)
Lemma unorm_zero_head d : unorm (D0 d) = D0 d -> d = Nil.
Proof.
  unfold unorm. rewrite nzhead_D0.
  destruct (nzhead d) eqn:E; intros H;
    try (injection H as H; congruence); try discriminate H.
  exfalso. apply (nzhead_nonzero d d). congruence.
Qed.

Lemma scan_integer_uint d :
  d <> Nil -> unorm d = d ->
  scan_integer (NilEmpty.string_of_uint d)
  = (NilEmpty.string_of_uint d, EmptyString).
Proof.
  intros Hd Hn.
  pose proof (span_digits_uint d EmptyString I) as Hspan.
  rewrite append_nil_r in Hspan.
  destruct d; try congruence;
    try (cbn [NilEmpty.string_of_uint scan_integer]; exact Hspan).
  apply unorm_zero_head in Hn. subst d. reflexivity.
Qed.

Lemma read_unsigned_digits (neg : bool) d :
  d <> Nil -> unorm d = d ->
  read_unsigned neg (NilEmpty.string_of_uint d)
  = Some (IntLit (Z.of_int (if neg then Neg d else Pos d)), EmptyString).
Proof.
  intros Hd Hn. unfold read_unsigned.
  rewrite (scan_integer_uint d Hd Hn).
  destruct (string_of_uint_digit d Hd) as (c & s & Hs & _).
  rewrite Hs, <- Hs. cbn [scan_fraction starts_with scan_exponent].
  unfold digits_value. rewrite NilEmpty.usu.
  now destruct neg.
Qed.

Lemma read_number_int z :
  read_number (NilZero.string_of_int (Z.to_int z))
  = Some (IntLit z, EmptyString).
Proof.
  destruct (to_int_normal z) as (d & Hd & Hn & [E | E]);
    rewrite <- (DecimalZ.of_to z) at 2; rewrite E;
    unfold NilZero.string_of_int.
  - rewrite (string_of_uint_nonnil _ Hd).
    rewrite <- (read_unsigned_digits false d Hd Hn).
    unfold read_number.
    destruct (string_of_uint_digit d Hd) as (c & s & Hs & Hc).
    rewrite Hs. cbn [starts_with].
    assert (Ec : Ascii.eqb c "-" = false)
      by (each_char c; try discriminate Hc; reflexivity).
    now rewrite Ec.
  - rewrite (string_of_uint_nonnil _ Hd).
    rewrite <- (read_unsigned_digits true d Hd Hn). reflexivity.
Qed.

Lemma parse_number_int z rest :
  ends_number rest = true ->
  parse_number (NilZero.string_of_int (Z.to_int z) ++ rest)
  = Some (JNum z, rest).
Proof.
  intros Hrest. unfold parse_number.
  now rewrite (read_number_append _ _ rest (read_number_int z) Hrest).
Qed.

Lemma parse_value_number fuel c s r :
  (is_digit c || Ascii.eqb c "-") = true ->
  parse_number (String c s) = Some r ->
  parse_value (S fuel) (String c s) = Some r.
Proof.
  intros H E.
  assert (G : parse_value (S fuel) (String c s)
              = match parse_number (String c s) with
                | Some r => Some r
                | None => parse_constant (String c s)
                end)
    by (each_char c; try discriminate H; reflexivity).
  now rewrite G, E.
Qed.

Lemma string_of_int_start z :
  exists c s, NilZero.string_of_int (Z.to_int z) = String c s
              /\ (is_digit c || Ascii.eqb c "-") = true.
Proof. apply (read_number_start _ _ (read_number_int z)). Qed.

(** ** Floats *)

Lemma spec_float_eqb_eq a b : spec_float_eqb a b = true -> a = b.
Proof.
  destruct a as [s | s | | s m e], b as [t | t | | t n k]; simpl;
    try discriminate; try reflexivity.
  - intros H. apply Bool.eqb_prop in H. now subst.
  - intros H. apply Bool.eqb_prop in H. now subst.
  - intros H. apply andb_prop in H as [H He]. apply andb_prop in H as [Hs Hm].
    apply Bool.eqb_prop in Hs. apply Pos.eqb_eq in Hm. apply Z.eqb_eq in He.
    now subst.
Qed.

(** A float is its double. *)
Lemma pyfloat_eq (a b : pyfloat) : double a = double b -> a = b.
Proof.
  destruct a as [x H], b as [y K]. simpl. intros <-. f_equal.
  apply UIP_dec, Bool.bool_dec.
Qed.

Lemma make_float_double x : make_float (double x) = Some x.
Proof.
  destruct x as [x H]. unfold make_float. cbn [double].
  assert (G : forall b (E : reads_back x = b),
             match b as b0 return reads_back x = b0 -> option pyfloat with
             | true => fun K => Some (PyFloat x K)
             | false => fun _ => None
             end E = Some (PyFloat x H)).
  { intros [|] E; [f_equal; now apply pyfloat_eq | congruence]. }
  apply G.
Qed.

(** The text of a float that is a number is read as that number. *)
Lemma reads_back_number x :
  reads_back x = true ->
  match x with S754_zero _ | S754_finite _ _ _ => True | _ => False end ->
  read_number (floatstr x) = Some (FloatLit x, EmptyString).
Proof.
  intros H Hx.
  assert (G : match read_number (floatstr x) with
              | Some (FloatLit y, EmptyString) => spec_float_eqb y x
              | _ => false
              end = true)
    by (destruct x; try contradiction; exact H).
  destruct (read_number (floatstr x)) as [[[z | y] [|c r]]|];
    try discriminate G.
  apply spec_float_eqb_eq in G. now subst.
Qed.

Lemma parse_value_float fuel x rest :
  ends_number rest = true ->
  parse_value (S fuel) (floatstr (double x) ++ rest) = Some (JFloat x, rest).
Proof.
  intros Hrest. destruct x as [x H].
  cbn [double].
  assert (Hx : match x with
               | S754_zero _ | S754_finite _ _ _ =>
                   read_number (floatstr x) = Some (FloatLit x, EmptyString)
               | _ => True
               end)
    by (destruct x; try exact I; now apply reads_back_number).
  destruct x as [s | s | | s m e].
  - destruct (read_number_start _ _ Hx) as (c & t & Ht & Hc).
    rewrite Ht. cbn [append]. apply parse_value_number; [exact Hc |].
    change (String c (t ++ rest)) with (String c t ++ rest)%string.
    rewrite <- Ht. unfold parse_number.
    rewrite (read_number_append _ _ rest Hx Hrest).
    pose proof (make_float_double (PyFloat (S754_zero s) H)) as M.
    cbn [double] in M. now rewrite M.
  - destruct s; apply f_equal with (f := fun y => Some (JFloat y, rest));
      now apply pyfloat_eq.
  - apply f_equal with (f := fun y => Some (JFloat y, rest)).
    now apply pyfloat_eq.
  - destruct (read_number_start _ _ Hx) as (c & t & Ht & Hc).
    rewrite Ht. cbn [append]. apply parse_value_number; [exact Hc |].
    change (String c (t ++ rest)) with (String c t ++ rest)%string.
    rewrite <- Ht. unfold parse_number.
    rewrite (read_number_append _ _ rest Hx Hrest).
    pose proof (make_float_double (PyFloat (S754_finite s m e) H)) as M.
    cbn [double] in M. now rewrite M.
Qed.

Lemma floatstr_start x :
  reads_back x = true ->
  exists c s, floatstr x = String c s
              /\ (is_digit c || Ascii.eqb c "-" || Ascii.eqb c "N"
                  || Ascii.eqb c "I") = true.
Proof.
  intros H. destruct x as [s | s | | s m e].
  - destruct (read_number_start _ _ (reads_back_number _ H I))
      as (c & t & Ht & Hc).
    exists c, t. now rewrite Ht, Hc.
  - destruct s; do 2 eexists; split; reflexivity.
  - do 2 eexists; split; reflexivity.
  - destruct (read_number_start _ _ (reads_back_number _ H I))
      as (c & t & Ht & Hc).
    exists c, t. now rewrite Ht, Hc.
Qed.

(** What [json.dumps (json.loads t)] is for some texts [t], as Python
    gives it. *)
Lemma float_text_examples :
  map (fun t => match json_loads t with
                | Ret v => json_dumps v
                | Raise _ => "JSONDecodeError"
                end)
    ["25.99"; "0.1"; "1e22"; "1E5"; "0.30000000000000004"; "0.1e-6";
     "562949953421312.25"; "123456789012345678.0"; "-0.0"; "5e-324";
     "1e400"; "NaN"; "-Infinity"; "100"; "1.0"; "2.50"; "1617235200.5";
     "[1.5, 2, 0.25e1]"; "1."; "01.5"; ".5"]
  = ["25.99"; "0.1"; "1e+22"; "100000.0"; "0.30000000000000004"; "1e-07";
     "562949953421312.2"; "1.2345678901234568e+17"; "-0.0"; "5e-324";
     "Infinity"; "NaN"; "-Infinity"; "100"; "1.0"; "2.5"; "1617235200.5";
     "[1.5, 2, 2.5]"; "JSONDecodeError"; "JSONDecodeError";
     "JSONDecodeError"].
Proof. vm_compute. reflexivity. Qed.

(** ** Induction on nested values *)

Lemma json_nested_ind (P : json -> Prop) :
  P JNull ->
  (forall b, P (JBool b)) ->
  (forall z, P (JNum z)) ->
  (forall x, P (JFloat x)) ->
  (forall s, P (JStr s)) ->
  (forall l, Forall P l -> P (JArr l)) ->
  (forall kv, Forall (fun p => P (snd p)) kv -> P (JObj kv)) ->
  forall v, P v.
Proof.
  intros Hnull Hbool Hnum Hfloat Hstr Harr Hobj. fix IH 1.
  intros [ | b | z | x | s | l | kv].
  - exact Hnull.
  - apply Hbool.
  - apply Hnum.
  - apply Hfloat.
  - apply Hstr.
  - apply Harr. induction l as [|x l IHl]; constructor; [apply IH | exact IHl].
  - apply Hobj.
    induction kv as [|[k x] kv IHkv]; constructor; [apply IH | exact IHkv].
Qed.

(** ** Unfolding the scanner *)

Lemma parse_value_array fuel s :
  parse_value (S fuel) (String "[" s)
  = match starts_with "]" (skip_ws s) with
    | Some s2 => Some (JArr [], s2)
    | None => parse_elements fuel s []
    end.
Proof. reflexivity. Qed.

Lemma parse_value_object fuel s :
  parse_value (S fuel) (String "{" s)
  = match starts_with "}" (skip_ws s) with
    | Some s2 => Some (JObj [], s2)
    | None => parse_members fuel s []
    end.
Proof. reflexivity. Qed.

Lemma parse_value_string fuel s :
  parse_value (S fuel) (String dquote s)
  = match scan_string s with
    | Some (str, s2) => Some (JStr str, s2)
    | None => None
    end.
Proof. reflexivity. Qed.

Lemma parse_elements_unfold fuel s acc :
  parse_elements (S fuel) s acc
  = match parse_value fuel s with
    | Some (v, s1) =>
        match starts_with "," (skip_ws s1) with
        | Some s2 => parse_elements fuel s2 (acc ++ [v])
        | None =>
            match starts_with "]" (skip_ws s1) with
            | Some s2 => Some (JArr (acc ++ [v]), s2)
            | None => None
            end
        end
    | None => None
    end.
Proof. reflexivity. Qed.

Lemma parse_members_unfold fuel s acc :
  parse_members (S fuel) (String dquote s) acc
  = match scan_string s with
    | Some (k, s2) =>
        match starts_with ":" (skip_ws s2) with
        | Some s3 =>
            match parse_value fuel s3 with
            | Some (v, s4) =>
                match starts_with "," (skip_ws s4) with
                | Some s5 => parse_members fuel s5 (dict_set acc k v)
                | None =>
                    match starts_with "}" (skip_ws s4) with
                    | Some s5 => Some (JObj (dict_set acc k v), s5)
                    | None => None
                    end
                end
            | None => None
            end
        | None => None
        end
    | None => None
    end.
Proof. reflexivity. Qed.

(** ** The first character of a value *)

Lemma value_start_spec c s :
  value_start c = true ->
  skip_ws (String c s) = String c s
  /\ starts_with "]" (String c s) = None
  /\ starts_with "}" (String c s) = None.
Proof. each_char c; intros H; try discriminate H; repeat split. Qed.

Lemma json_dumps_start v :
  exists c s, json_dumps v = String c s /\ value_start c = true.
Proof.
  destruct v as [ | [|] | z | x | s | l | kv]; cbn [json_dumps];
    try (do 2 eexists; split; reflexivity).
  - destruct (string_of_int_start z) as (c & s & Hs & Hc).
    exists c, s. split; [exact Hs |]. unfold value_start.
    apply orb_true_iff in Hc as [-> | ->]; simpl; now rewrite ?orb_true_r.
  - destruct (floatstr_start _ (double_reads_back x)) as (c & s & Hs & Hc).
    exists c, s. split; [exact Hs |]. unfold value_start.
    repeat (apply orb_true_iff in Hc as [Hc | ->];
            [| simpl; now rewrite ?orb_true_r]).
    now rewrite Hc.
Qed.

Lemma join_cons sep x y l :
  join sep (x :: y :: l) = (x ++ sep ++ join sep (y :: l))%string.
Proof. reflexivity. Qed.

(** ** Arrays *)

Lemma parse_elements_dumps space l :
  Forall (fun v => parses_as (json_dumps v) v (json_size v)) l ->
  forall v, parses_as (json_dumps v) v (json_size v) ->
  forall fuel acc rest,
    S (json_size v) + list_sum (map (fun x => S (json_size x)) l) <= fuel ->
    parse_elements fuel
      (join (item_sep space) (map json_dumps (v :: l)) ++ String "]" rest) acc
    = Some (JArr (acc ++ v :: l), rest).
Proof.
  induction 1 as [|v' l Hv' Hl IH]; intros v Hv fuel acc rest Hfuel.
  - destruct fuel as [|fuel]; [simpl in Hfuel; lia |].
    rewrite parse_elements_unfold. simpl join.
    rewrite (Hv fuel (String "]" rest)); [reflexivity | simpl in Hfuel; lia |
                                           reflexivity].
  - destruct fuel as [|fuel]; [simpl in Hfuel; lia |].
    rewrite parse_elements_unfold.
    change (map json_dumps (v :: v' :: l))
      with (json_dumps v :: json_dumps v' :: map json_dumps l).
    rewrite join_cons, !append_assoc.
    change (json_dumps v' :: map json_dumps l)
      with (map json_dumps (v' :: l)).
    simpl in Hfuel.
    assert (HJ : parse_elements fuel
                   (join (item_sep space) (map json_dumps (v' :: l))
                    ++ String "]" rest) (acc ++ [v])
                 = Some (JArr (acc ++ v :: v' :: l), rest)).
    { rewrite IH by (auto; simpl; lia). now rewrite <- app_assoc. }
    set (J := (join (item_sep space) (map json_dumps (v' :: l))
               ++ String "]" rest)%string) in *.
    clearbody J.
    destruct space; simpl item_sep; simpl append;
      (rewrite (Hv fuel); [| lia | reflexivity]); simpl;
      now rewrite ?parse_elements_space, HJ.
Qed.

Lemma parses_array space l :
  Forall (fun v => parses_as (json_dumps v) v (json_size v)) l ->
  parses_as (array_text space l) (JArr l) (json_size (JArr l)).
Proof.
  intros Hl fuel rest Hfuel Hrest.
  destruct fuel as [|fuel]; [simpl in Hfuel; lia |].
  destruct l as [|v l].
  - reflexivity.
  - unfold array_text. rewrite !append_assoc.
    change ("[" ++ ?x)%string with (String "[" x).
    change ("]" ++ rest)%string with (String "]" rest).
    rewrite parse_value_array.
    inversion Hl as [|? ? Hv Hl']; subst.
    rewrite (parse_elements_dumps space l Hl' v Hv fuel [] rest)
      by (simpl in Hfuel |- *; lia).
    destruct (json_dumps_start v) as (c & s & Hs & Hc).
    destruct l as [|v' l].
    + simpl join. rewrite Hs. simpl append.
      destruct (value_start_spec c (s ++ String "]" rest) Hc) as (-> & -> & _).
      reflexivity.
    + change (map json_dumps (v :: v' :: l))
        with (json_dumps v :: json_dumps v' :: map json_dumps l).
      rewrite join_cons, !append_assoc, Hs. simpl append.
      match goal with
      | |- context [skip_ws (String c ?x)] =>
          destruct (value_start_spec c x Hc) as (-> & -> & _)
      end.
      reflexivity.
Qed.

(** ** Objects *)

Lemma existsb_eqb_app k l1 l2 :
  existsb (String.eqb k) (l1 ++ l2)
  = existsb (String.eqb k) l1 || existsb (String.eqb k) l2.
Proof. apply existsb_app. Qed.

Lemma nodupb_app_cons l1 k l2 :
  nodupb (l1 ++ k :: l2) = true ->
  existsb (String.eqb k) l1 = false.
Proof.
  induction l1 as [|x l1 IH]; simpl; [reflexivity |].
  intros H. apply andb_prop in H as [Hx Hn].
  rewrite (IH Hn), orb_false_r.
  apply negb_true_iff in Hx. rewrite existsb_app in Hx.
  apply orb_false_iff in Hx as [_ Hx]. simpl in Hx.
  apply orb_false_iff in Hx as [Hx _].
  now rewrite String.eqb_sym.
Qed.

Lemma dict_set_fresh acc k v :
  existsb (String.eqb k) (map fst acc) = false ->
  dict_set acc k v = acc ++ [(k, v)].
Proof.
  induction acc as [|[k' v'] acc IH]; simpl; [reflexivity |].
  intros H. apply orb_false_iff in H as [Hk H].
  rewrite String.eqb_sym in Hk. now rewrite Hk, IH.
Qed.

Lemma member_text_eq k t v n :
  member_text (k, t, v, n) = (quoted k ++ ": " ++ t)%string.
Proof. reflexivity. Qed.

Lemma join_single sep x : join sep [x] = x.
Proof. reflexivity. Qed.

Lemma parse_members_items items :
  Forall member_parses items ->
  forall m, member_parses m ->
  forall fuel acc rest,
    member_fuel m + list_sum (map member_fuel items) <= fuel ->
    nodupb (map fst acc ++ map fst (map member_item (m :: items))) = true ->
    parse_members fuel
      (join ", " (map member_text (m :: items)) ++ String "}" rest) acc
    = Some (JObj (acc ++ map member_item (m :: items)), rest).
Proof.
  induction 1 as [|m' items Hm' Hitems IH];
    intros [[[k t] v] n] Hm fuel acc rest Hfuel Hkeys;
    (destruct fuel as [|fuel]; [simpl in Hfuel; lia |]);
    simpl in Hm, Hfuel;
    pose proof (nodupb_app_cons _ _ _ Hkeys) as Hfresh.
  - cbn [map]. rewrite join_single, member_text_eq.
    rewrite !append_assoc, quoted_append, parse_members_unfold.
    rewrite scan_string_escape. simpl starts_with. cbv beta iota.
    rewrite parse_value_space.
    rewrite (Hm fuel); [| lia | reflexivity].
    simpl. now rewrite dict_set_fresh.
  - change (map member_text ((k, t, v, n) :: m' :: items))
      with (member_text (k, t, v, n) :: member_text m' :: map member_text items).
    rewrite join_cons, member_text_eq.
    change (member_text m' :: map member_text items)
      with (map member_text (m' :: items)).
    rewrite !append_assoc.
    assert (HJ : parse_members fuel
                   (join ", " (map member_text (m' :: items))
                    ++ String "}" rest) (acc ++ [(k, v)])
                 = Some (JObj (acc ++ map member_item
                                 ((k, t, v, n) :: m' :: items)), rest)).
    { rewrite IH; auto.
      - simpl. now rewrite <- app_assoc.
      - simpl in Hfuel |- *. lia.
      - rewrite map_app, <- app_assoc. exact Hkeys. }
    set (J := (join ", " (map member_text (m' :: items))
               ++ String "}" rest)%string) in *.
    clearbody J.
    rewrite quoted_append, parse_members_unfold, scan_string_escape.
    simpl starts_with. cbv beta iota.
    rewrite parse_value_space.
    rewrite (Hm fuel); [| lia | reflexivity].
    simpl. rewrite parse_members_space, dict_set_fresh by exact Hfresh.
    exact HJ.
Qed.

Lemma parses_object items :
  Forall member_parses items ->
  nodupb (map fst (map member_item items)) = true ->
  parses_as ("{" ++ join ", " (map member_text items) ++ "}")
    (JObj (map member_item items)) (S (list_sum (map member_fuel items))).
Proof.
  intros Hitems Hkeys fuel rest Hfuel Hrest.
  destruct fuel as [|fuel]; [lia |].
  destruct items as [|m items].
  - reflexivity.
  - rewrite !append_assoc.
    change ("{" ++ ?x)%string with (String "{" x).
    change ("}" ++ rest)%string with (String "}" rest).
    rewrite parse_value_object.
    inversion Hitems as [|? ? Hm Hitems']; subst.
    rewrite (parse_members_items items Hitems' m Hm fuel [] rest)
      by (simpl in Hfuel |- *; try lia; exact Hkeys).
    destruct m as [[[k t] v] n].
    destruct items as [|m' items].
    + cbn [map]. rewrite join_single, member_text_eq.
      rewrite !append_assoc, quoted_append. reflexivity.
    + change (map member_text ((k, t, v, n) :: m' :: items))
        with (member_text (k, t, v, n) :: member_text m'
                :: map member_text items).
      rewrite join_cons, member_text_eq.
      rewrite !append_assoc, quoted_append. reflexivity.
Qed.

(** ** [json.loads (json.dumps v)] *)

Lemma json_dumps_parses v :
  unique_keys v = true -> parses_as (json_dumps v) v (json_size v).
Proof.
  induction v as [ | b | z | x | s | l IH | kv IH] using json_nested_ind;
    intros Hu.
  - intros [|fuel] rest Hfuel _; [simpl in Hfuel; lia | reflexivity].
  - intros [|fuel] rest Hfuel _; [simpl in Hfuel; lia |].
    destruct b; reflexivity.
  - intros [|fuel] rest Hfuel Hrest; [simpl in Hfuel; lia |].
    simpl json_dumps.
    destruct (string_of_int_start z) as (c & s & Hs & Hc).
    pose proof (parse_number_int z rest Hrest) as P.
    rewrite Hs in P |- *. now apply parse_value_number.
  - intros [|fuel] rest Hfuel Hrest; [simpl in Hfuel; lia |].
    now apply parse_value_float.
  - intros [|fuel] rest Hfuel _; [simpl in Hfuel; lia |].
    simpl json_dumps. rewrite quoted_append, parse_value_string.
    now rewrite scan_string_escape.
  - apply (parses_array true). simpl in Hu.
    rewrite forallb_forall in Hu. rewrite Forall_forall in IH |- *.
    intros x Hx. apply IH; auto.
  - simpl in Hu. apply andb_prop in Hu as [Hkeys Hvals].
    set (items := map (fun p : string * json =>
                         (fst p, json_dumps (snd p), snd p, json_size (snd p)))
                    kv).
    assert (Htext : map member_text items
                    = map (fun p => quoted (fst p) ++ ": "
                                    ++ json_dumps (snd p))%string kv).
    { unfold items. rewrite map_map. reflexivity. }
    assert (Hitems : map member_item items = kv).
    { unfold items. rewrite map_map. rewrite <- (map_id kv) at 2.
      apply map_ext. now intros [k x]. }
    assert (Hfuel : map member_fuel items
                    = map (fun p => S (json_size (snd p))) kv).
    { unfold items. rewrite map_map. reflexivity. }
    simpl json_dumps. simpl json_size.
    rewrite <- Htext, <- Hfuel, <- Hitems at 1.
    apply parses_object.
    + unfold items. rewrite Forall_map.
      rewrite forallb_forall in Hvals. rewrite Forall_forall in IH |- *.
      intros p Hp. simpl. apply IH; auto.
    + now rewrite Hitems.
Qed.

Lemma parses_as_loads t v n :
  parses_as t v n -> n <= S (String.length t) -> json_loads t = Ret v.
Proof.
  intros H Hn. unfold json_loads.
  rewrite <- (append_nil_r t) at 2.
  now rewrite (H (S (String.length t)) "" Hn eq_refl).
Qed.

(** ** The fuel a text provides *)

Lemma length_join_dumps sep (f : json -> nat) (g : json -> string) l :
  Forall (fun v => f v <= String.length (g v)) l ->
  1 <= String.length sep ->
  list_sum (map (fun x => S (f x)) l)
  <= S (String.length (join sep (map g l))).
Proof.
  intros Hl Hsep. induction Hl as [|v l Hv Hl IH]; [simpl; lia |].
  destruct l as [|v' l].
  - simpl. lia.
  - change (map g (v :: v' :: l)) with (g v :: g v' :: map g l).
    rewrite join_cons, !length_append.
    change (g v' :: map g l) with (map g (v' :: l)).
    change (list_sum (map (fun x => S (f x)) (v :: v' :: l)))
      with (S (f v) + list_sum (map (fun x => S (f x)) (v' :: l))).
    lia.
Qed.

Lemma length_join_le {A : Type} sep (g h : A -> string) l :
  (forall x, String.length (g x) <= String.length (h x)) ->
  String.length (join sep (map g l)) <= String.length (join sep (map h l)).
Proof.
  intros Hle. induction l as [|x l IH]; [simpl; lia |].
  destruct l as [|y l].
  - cbn [map]. rewrite !join_single. apply Hle.
  - cbn [map] in *. rewrite !join_cons, !length_append.
    specialize (Hle x). lia.
Qed.

Lemma json_size_length v : json_size v <= String.length (json_dumps v).
Proof.
  induction v as [ | b | z | x | s | l IH | kv IH] using json_nested_ind.
  - simpl; lia.
  - destruct b; simpl; lia.
  - simpl. destruct (string_of_int_start z) as (c & s & -> & _). simpl; lia.
  - cbn [json_size json_dumps].
    destruct (floatstr_start _ (double_reads_back x)) as (c & s & -> & _).
    simpl; lia.
  - simpl; lia.
  - simpl json_size. simpl json_dumps. cbn [String.length].
    rewrite !length_append.
    pose proof (length_join_dumps ", " json_size json_dumps l IH).
    simpl in *. lia.
  - simpl json_size. simpl json_dumps. cbn [String.length].
    rewrite !length_append.
    pose proof (length_join_dumps ", " (fun v => json_size v)
                  (fun v => json_dumps v) (map snd kv)) as H.
    rewrite !map_map in H.
    assert (Hlen := length_join_le ", "
                      (fun p : string * json => json_dumps (snd p))
                      (fun p => quoted (fst p) ++ ": " ++ json_dumps (snd p))%string
                      kv).
    assert (Hle : forall p : string * json,
               String.length (json_dumps (snd p))
               <= String.length (quoted (fst p) ++ ": " ++ json_dumps (snd p))).
    { intros p. rewrite !length_append. lia. }
    specialize (Hlen Hle).
    rewrite Forall_map in H. specialize (H IH). simpl in *. lia.
Qed.

(* ================================================================= *)
(** * The request body of a window (lines 88-104) *)

Lemma unique_keys_dict_get kv k x :
  forallb (fun p => unique_keys (snd p)) kv = true ->
  dict_get kv k = Some x -> unique_keys x = true.
Proof.
  induction kv as [|[k' v'] kv IH]; simpl; [discriminate |].
  intros H. apply andb_prop in H as [Hv Hkv].
  destruct (String.eqb k' k); [intros [= <-]; exact Hv | now apply IH].
Qed.

Lemma unique_keys_subscript v k x :
  unique_keys v = true -> subscript v k = Ret x -> unique_keys x = true.
Proof.
  destruct v as [ | | | | | | kv]; simpl; try discriminate.
  intros H. apply andb_prop in H as [_ H].
  destruct (dict_get kv k) eqn:E; [| discriminate].
  intros [= <-]. eapply unique_keys_dict_get; eauto.
Qed.

Lemma has_key_subscript v k :
  has_key v k = true -> exists x, subscript v k = Ret x.
Proof. unfold has_key. destruct (subscript v k); [eauto | discriminate]. Qed.

(** A conversion record yields its conversion object. *)
Lemma conversion_dict_record fla flc row :
  conversion_record row = true ->
  unique_keys fla = true -> unique_keys flc = true ->
  exists c, conversion_dict row fla flc = Ret c
            /\ unique_keys c = true /\ carries fla flc row c.
Proof.
  intros Hrow Hfla Hflc. apply andb_prop in Hrow as [Hu Hf].
  simpl in Hf. repeat (apply andb_prop in Hf as [?H Hf]).
  repeat match goal with
         | H : has_key row _ = true |- _ =>
             apply has_key_subscript in H as [?x ?E]
         end.
  unfold conversion_dict. rewrite E, E0, E1, E2, E3.
  eexists. split; [reflexivity |]. split.
  - simpl. rewrite Hfla, Hflc.
    repeat match goal with
           | E : subscript row _ = Ret ?x |- _ =>
               rewrite (unique_keys_subscript _ _ _ Hu E); clear E
           end.
    reflexivity.
  - unfold carries. rewrite E, E0, E1, E2, E3.
    repeat split. eexists. split; reflexivity.
Qed.

Lemma append_conversions_dicts fla flc window cs :
  Forall2 (fun row c => conversion_dict row fla flc = Ret c) window cs ->
  forall text,
    append_conversions window fla flc text
    = Ret (text ++ fold_right (fun c s => json_dumps c ++ "," ++ s) "" cs)%string.
Proof.
  induction 1 as [|row c window cs Hc _ IH]; intros text; simpl.
  - now rewrite append_nil_r.
  - rewrite Hc, IH. now rewrite !append_assoc.
Qed.

Lemma concat_commas c cs :
  fold_right (fun c s => json_dumps c ++ "," ++ s)%string "" (c :: cs)
  = (join "," (map json_dumps (c :: cs)) ++ ",")%string.
Proof.
  revert c. induction cs as [|c' cs IH]; intros c.
  - reflexivity.
  - change (map json_dumps (c :: c' :: cs))
      with (json_dumps c :: json_dumps c' :: map json_dumps cs).
    rewrite join_cons.
    change (json_dumps c' :: map json_dumps cs)
      with (map json_dumps (c' :: cs)).
    rewrite !append_assoc, <- IH. reflexivity.
Qed.

Lemma request_text cs :
  ((request_head ++ join "," (map json_dumps cs)) ++ "]}")%string
  = ("{" ++ join ", "
       (map member_text
          [("kind",
            json_dumps (JStr "dfareporting#conversionsBatchInsertRequest"),
            JStr "dfareporting#conversionsBatchInsertRequest", 1);
           ("conversions", array_text false cs, JArr cs,
            json_size (JArr cs))]) ++ "}")%string.
Proof.
  unfold array_text. cbn [map item_sep]. rewrite join_cons, join_single.
  rewrite !member_text_eq.
  generalize (join "," (map json_dumps cs)). intros J.
  rewrite !append_assoc. reflexivity.
Qed.

Lemma loads_request_text cs :
  Forall (fun c => unique_keys c = true) cs ->
  json_loads ((request_head ++ join "," (map json_dumps cs)) ++ "]}")
  = Ret (batch_request cs).
Proof.
  intros Hcs. rewrite request_text.
  eapply parses_as_loads.
  - apply parses_object; [| reflexivity].
    repeat constructor.
    + apply (json_dumps_parses (JStr _)). reflexivity.
    + apply parses_array. rewrite Forall_forall in Hcs |- *.
      intros c Hc. apply json_dumps_parses. auto.
  - rewrite <- request_text. rewrite !length_append.
    pose proof (length_join_dumps "," json_size json_dumps cs) as Hlen.
    rewrite Forall_forall in Hlen.
    specialize (Hlen (fun c _ => json_size_length c)).
    simpl in *. lia.
Qed.

Lemma window_body_dicts fla flc window cs :
  window <> [] ->
  Forall2 (fun row c => conversion_dict row fla flc = Ret c) window cs ->
  Forall (fun c => unique_keys c = true) cs ->
  window_body window fla flc request_head = Ret (batch_request cs).
Proof.
  intros Hne Hd Hu. unfold window_body.
  rewrite (append_conversions_dicts _ _ _ _ Hd).
  destruct Hd as [|row c window cs _ _]; [congruence |].
  rewrite concat_commas, <- append_assoc, drop_last_snoc.
  now apply loads_request_text.
Qed.

(* ================================================================= *)
(** * The [while] loop *)

Lemma upload_loop_step svc rows p flc fla currentrow text w :
  upload_loop svc rows p flc fla currentrow text w
  = if Nat.ltb currentrow (List.length rows) then
      match upload_window svc rows p flc fla currentrow text w with
      | (Ret _, w') =>
          upload_loop svc rows p flc fla (currentrow + 100) request_head w'
      | (Raise e, w') => (Raise e, w')
      end
    else (Ret tt, w).
Proof.
  rewrite upload_loop_equation_1.
  destruct (Nat.ltb_spec currentrow (List.length rows)) as [Hlt | Hge];
    destruct (lt_dec currentrow (List.length rows)) as [Hlt' | Hge'];
    try lia; simpl; [| reflexivity].
  destruct (upload_window svc rows p flc fla currentrow text w)
    as [[[] | e] w']; reflexivity.
Qed.

Lemma window_count_lt n k : 100 * k < n <-> k < window_count n.
Proof.
  unfold window_count.
  pose proof (Nat.div_mod_eq (n + 99) 100) as E.
  pose proof (Nat.mod_upper_bound (n + 99) 100) as B.
  lia.
Qed.

(** The loop is the sequence of its turns, one per window, up to the first
    one that raises. *)
Lemma upload_loop_turns svc rows p flc fla :
  forall m k w,
    m = window_count (List.length rows) - k ->
    upload_loop svc rows p flc fla (100 * k) request_head w
    = for_each (seq k m) (turn svc rows p flc fla) w.
Proof.
  induction m as [|m IH]; intros k w Hm; rewrite upload_loop_step.
  - assert (H : Nat.ltb (100 * k) (List.length rows) = false).
    { apply Nat.ltb_nlt. rewrite window_count_lt. lia. }
    now rewrite H.
  - assert (H : Nat.ltb (100 * k) (List.length rows) = true).
    { apply Nat.ltb_lt. rewrite window_count_lt. lia. }
    rewrite H. cbn [seq for_each]. unfold bind at 1. unfold turn at 1.
    destruct (upload_window svc rows p flc fla (100 * k) request_head w)
      as [[[] | e] w']; [| reflexivity].
    replace (100 * k + 100) with (100 * S k) by lia.
    apply IH. lia.
Qed.

(* ================================================================= *)
(** * The windows *)

Lemma firstn_plus {A : Type} (a b : nat) (l : list A) :
  firstn (a + b) l = firstn a l ++ firstn b (skipn a l).
Proof.
  revert l. induction a as [|a IH]; intros l; [reflexivity |].
  destruct l as [|x l]; simpl; [now rewrite firstn_nil | now rewrite IH].
Qed.

Lemma window_firstn rows k :
  window rows k = firstn 100 (skipn (100 * k) rows).
Proof.
  unfold window, slice.
  destruct (Nat.le_gt_cases (100 * k + 100) (List.length rows)) as [H | H].
  - rewrite Nat.min_l by exact H. f_equal. lia.
  - rewrite Nat.min_r by lia.
    rewrite !firstn_all2; [reflexivity | |]; rewrite length_skipn; lia.
Qed.

Lemma concat_chunks (rows : list json) m :
  forall k,
    List.concat (map (window rows) (seq k m))
    = firstn (100 * m) (skipn (100 * k) rows).
Proof.
  induction m as [|m IH]; intros k.
  - reflexivity.
  - cbn [seq map List.concat]. rewrite IH, window_firstn.
    replace (100 * S m) with (100 + 100 * m) by lia.
    rewrite firstn_plus, skipn_skipn.
    do 3 f_equal. lia.
Qed.

Lemma concat_windows rows : List.concat (windows rows) = rows.
Proof.
  unfold windows. rewrite concat_chunks.
  change (skipn (100 * 0) rows) with rows.
  apply firstn_all2.
  pose proof (window_count_lt (List.length rows)
                (window_count (List.length rows))).
  lia.
Qed.

Lemma window_length rows k :
  k < window_count (List.length rows) ->
  0 < List.length (window rows k) <= 100.
Proof.
  intros H. apply window_count_lt in H.
  rewrite window_firstn, length_firstn, length_skipn. lia.
Qed.


Lemma window_nonempty rows k :
  k < window_count (List.length rows) -> window rows k <> [].
Proof.
  intros H E. apply window_length in H. rewrite E in H. simpl in H. lia.
Qed.

Lemma window_incl rows k x : In x (window rows k) -> In x rows.
Proof.
  rewrite window_firstn. intros H.
  rewrite <- (firstn_skipn (100 * k) rows). apply in_or_app. right.
  rewrite <- (firstn_skipn 100 (skipn (100 * k) rows)).
  apply in_or_app. now left.
Qed.

(* ================================================================= *)
(** * What a computation submits *)

Lemma quiet_ret {A : Type} (a : A) : quiet (ret a).
Proof. intros w. reflexivity. Qed.

Lemma quiet_raise {A : Type} e : quiet (@raise A e).
Proof. intros w. reflexivity. Qed.

Lemma quiet_lift {A : Type} (o : outcome A) : quiet (lift o).
Proof. intros w. reflexivity. Qed.

Lemma quiet_print e : quiet (print e).
Proof. intros w. reflexivity. Qed.

Lemma quiet_bind {A B : Type} (m : M A) (k : A -> M B) :
  quiet m -> (forall a, quiet (k a)) -> quiet (bind m k).
Proof.
  intros Hm Hk w. unfold bind. specialize (Hm w).
  destruct (m w) as [[a | e] w']; simpl in *; [| exact Hm].
  now rewrite Hk.
Qed.

Lemma quiet_try_except {A : Type} (m h : M A) :
  quiet m -> quiet h -> quiet (try_except m h).
Proof.
  intros Hm Hh w. unfold try_except. specialize (Hm w).
  destruct (m w) as [[a | e] w']; simpl in *; [exact Hm |].
  now rewrite Hh.
Qed.

Lemma quiet_for_each {A : Type} (l : list A) (body : A -> M unit) :
  (forall x, quiet (body x)) -> quiet (for_each l body).
Proof.
  intros Hbody. induction l as [|x l IH]; simpl.
  - apply quiet_ret.
  - apply quiet_bind; auto.
Qed.

Lemma quiet_if {A : Type} (b : bool) (m1 m2 : M A) :
  quiet m1 -> quiet m2 -> quiet (if b then m1 else m2).
Proof. now destruct b. Qed.

Create HintDb quiet.
#[local] Hint Resolve quiet_ret quiet_raise quiet_lift quiet_print
  quiet_try_except quiet_for_each quiet_if : quiet.
#[local] Hint Extern 2 (quiet (bind _ _)) =>
  apply quiet_bind; [| intros ?] : quiet.

Lemma quiet_report_entry line error : quiet (report_entry line error).
Proof. unfold report_entry. auto 12 with quiet. Qed.

Lemma quiet_report_errors line : quiet (report_errors line).
Proof.
  unfold report_errors. pose proof (quiet_report_entry line).
  auto 12 with quiet.
Qed.

Lemma quiet_report_inserted line : quiet (report_inserted line).
Proof.
  unfold report_inserted. apply quiet_bind; [auto with quiet |].
  intros [ | | | | s | | ]; auto with quiet.
Qed.

Lemma quiet_report_line line : quiet (report_line line).
Proof.
  unfold report_line.
  apply quiet_try_except;
    [apply quiet_report_errors | apply quiet_report_inserted].
Qed.

Lemma quiet_report_response response : quiet (report_response response).
Proof.
  unfold report_response.
  pose proof quiet_report_line. auto 12 with quiet.
Qed.

(** ** One turn of the loop *)

Section Turn.

Variables (svc : service) (rows : list json).
Variables (p flc fla : json).
Variable k : nat.

Lemma turn_window_raises e w :
  window_body (window rows k) fla flc request_head = Raise e ->
  turn svc rows p flc fla k w = (Raise e, w).
Proof.
  intros H. unfold turn, upload_window, bind, lift.
  fold (window rows k). now rewrite H.
Qed.

Lemma turn_calls body w :
  window_body (window rows k) fla flc request_head = Ret body ->
  calls (snd (turn svc rows p flc fla k w)) = calls w ++ [(p, body)].
Proof.
  intros H. unfold turn, upload_window. fold (window rows k).
  unfold bind at 1. unfold lift at 1. rewrite H.
  unfold bind at 1. unfold print at 1.
  unfold bind at 1. unfold execute at 1. cbn [calls stdout].
  destruct (svc (List.length (calls w)) p body) as [r | e];
    [| reflexivity].
  match goal with
  | |- calls (snd (?m ?w0)) = _ =>
      assert (Hq : quiet m);
      [| rewrite (Hq w0); reflexivity]
  end.
  pose proof (quiet_report_response r). auto 6 with quiet.
Qed.

Lemma turn_returns body r w :
  window_body (window rows k) fla flc request_head = Ret body ->
  svc (List.length (calls w)) p body = Ret r ->
  reports_cleanly r ->
  fst (turn svc rows p flc fla k w) = Ret tt.
Proof.
  intros H Hr Hclean. unfold turn, upload_window. fold (window rows k).
  unfold bind at 1. unfold lift at 1. rewrite H.
  unfold bind at 1. unfold print at 1.
  unfold bind at 1. unfold execute at 1. cbn [calls stdout]. rewrite Hr.
  unfold bind at 1. unfold print at 1.
  unfold bind at 1.
  match goal with
  | |- context [report_response r ?w0] =>
      specialize (Hclean w0); destruct (report_response r w0) as [[[] | e] w']
  end; [reflexivity | discriminate Hclean].
Qed.

Lemma turn_remote_error body e w :
  window_body (window rows k) fla flc request_head = Ret body ->
  svc (List.length (calls w)) p body = Raise e ->
  fst (turn svc rows p flc fla k w) = Raise e.
Proof.
  intros H He. unfold turn, upload_window. fold (window rows k).
  unfold bind at 1. unfold lift at 1. rewrite H.
  unfold bind at 1. unfold print at 1.
  unfold bind at 1. unfold execute at 1. cbn [calls stdout].
  now rewrite He.
Qed.

End Turn.

(** ** The turns in sequence *)

Section Turns.

Variables (svc : service) (rows : list json).
Variables (p flc fla : json).


Variable body_of : nat -> json.

(** The turns of [ks] return when the service answers each of them with a
    response that is walked through; [bound] tells how many calls it
    answers so. *)
Lemma turns_return bound ks :
  (forall k, In k ks ->
     window_body (window rows k) fla flc request_head = Ret (body_of k)) ->
  (forall n body, n < bound ->
     exists r, svc n p body = Ret r /\ reports_cleanly r) ->
  forall w,
    List.length (calls w) + List.length ks <= bound ->
    fst (for_each ks (turn svc rows p flc fla) w) = Ret tt
    /\ calls (snd (for_each ks (turn svc rows p flc fla) w))
       = calls w ++ map (fun k => (p, body_of k)) ks.
Proof.
  intros Hbody Hsvc. induction ks as [|k ks IH]; intros w Hbound.
  - simpl. now rewrite List.app_nil_r.
  - cbn [for_each]. unfold bind.
    assert (Hk : window_body (window rows k) fla flc request_head
                 = Ret (body_of k)) by (apply Hbody; now left).
    destruct (Hsvc (List.length (calls w)) (body_of k)) as (r & Hr & Hclean);
      [simpl in Hbound; lia |].
    pose proof (turn_returns svc rows p flc fla k _ r w Hk Hr Hclean) as Hret.
    pose proof (turn_calls svc rows p flc fla k _ w Hk) as Hcalls.
    
    destruct (turn svc rows p flc fla k w) as [[[] | e] w1]; [| discriminate Hret].
    simpl in Hcalls.
    destruct (IH (fun k' H => Hbody k' (or_intror H)) w1) as [Hret' Hcalls'].
    { rewrite Hcalls, List.length_app. simpl in *. lia. }
    split; [exact Hret' |].
    rewrite Hcalls', Hcalls, <- app_assoc. reflexivity.
Qed.

(** A remote error on the turn that follows [ks] stops the loop there. *)
Lemma turns_remote_error ks k ks' e :
  (forall j, In j (ks ++ [k]) ->
     window_body (window rows j) fla flc request_head = Ret (body_of j)) ->
  (forall n body, n < List.length ks ->
     exists r, svc n p body = Ret r /\ reports_cleanly r) ->
  (forall body, svc (List.length ks) p body = Raise e) ->
  forall w,
    calls w = [] ->
    fst (for_each (ks ++ k :: ks') (turn svc rows p flc fla) w) = Raise e
    /\ calls (snd (for_each (ks ++ k :: ks') (turn svc rows p flc fla) w))
       = map (fun j => (p, body_of j)) (ks ++ [k]).
Proof.
  intros Hbody Hsvc Herr w Hw.
  assert (Hsplit : forall l1 l2 w0,
             for_each (l1 ++ l2) (turn svc rows p flc fla) w0
             = bind (for_each l1 (turn svc rows p flc fla))
                 (fun _ => for_each l2 (turn svc rows p flc fla)) w0).
  { induction l1 as [|x l1 IH1]; intros l2 w0; unfold bind in *; simpl.
    - reflexivity.
    - unfold bind. destruct (turn svc rows p flc fla x w0) as [[[] | e0] w1]; [| reflexivity].
      apply IH1. }
  rewrite Hsplit. unfold bind.
  destruct (turns_return (List.length ks) ks) with (w := w)
    as [Hret Hcalls].
  { intros j Hj. apply Hbody, in_or_app. now left. }
  { exact Hsvc. }
  { rewrite Hw. simpl. lia. }
  destruct (for_each ks (turn svc rows p flc fla) w) as [[[] | e0] w1]; [| discriminate Hret].
  simpl in Hcalls. rewrite Hw in Hcalls. simpl in Hcalls.
  cbn [for_each]. unfold bind.
  assert (Hk : window_body (window rows k) fla flc request_head
               = Ret (body_of k)).
  { apply Hbody, in_or_app. right. now left. }
  assert (Hlen : List.length (calls w1) = List.length ks).
  { now rewrite Hcalls, length_map. }
  pose proof (turn_remote_error svc rows p flc fla k _ e w1 Hk) as Hraise.
  rewrite Hlen in Hraise. specialize (Hraise (Herr _)).
  pose proof (turn_calls svc rows p flc fla k _ w1 Hk) as Hcalls1.
  
  destruct (turn svc rows p flc fla k w1) as [[[] | e1] w2]; [discriminate Hraise |].
  simpl in *. split; [exact Hraise |].
  now rewrite Hcalls1, Hcalls, map_app.
Qed.

End Turns.

(* ================================================================= *)
(** * [upload_data] *)

Lemma upload_data_guard setup rows p flc fla w :
  negb (truthy fla) || negb (truthy flc) = true ->
  upload_data setup rows p flc fla w
  = (Ret tt, printed w [PrintStarting; PrintMissingFloodlight]).
Proof.
  intros H. unfold upload_data, bind, print, printed. simpl.
  rewrite H. simpl. now rewrite <- app_assoc.
Qed.

Lemma upload_data_loop svc rows p flc fla w :
  truthy fla = true -> truthy flc = true ->
  upload_data (Ret svc) (JArr rows) p flc fla w
  = for_each (seq 0 (window_count (List.length rows)))
      (turn svc rows p flc fla)
      (printed w [PrintStarting; PrintAuthorized]).
Proof.
  intros Hfla Hflc. unfold upload_data, bind, print, lift, printed. simpl.
  rewrite Hfla, Hflc. simpl. rewrite <- app_assoc.
  change 0 with (100 * 0) at 1.
  apply upload_loop_turns. lia.
Qed.

Lemma upload_data_setup_raises e rows p flc fla w :
  truthy fla = true -> truthy flc = true ->
  upload_data (Raise e) rows p flc fla w
  = (Raise e, printed w [PrintStarting]).
Proof.
  intros Hfla Hflc. unfold upload_data, bind, print, lift, printed. simpl.
  now rewrite Hfla, Hflc.
Qed.

(** C8: when the floodlight activity id or the floodlight configuration
    id is empty or missing, [upload_data] reports it and returns at once:
    no upload call is made and nothing is raised, whatever the rows are
    and whatever [setup()] would have done. *)
Theorem upload_data_missing_floodlight setup rows p flc fla w :
  truthy fla = false \/ truthy flc = false ->
  upload_data setup rows p flc fla w
  = (Ret tt, printed w [PrintStarting; PrintMissingFloodlight])
  /\ calls (snd (upload_data setup rows p flc fla w)) = calls w.
Proof.
  intros H.
  assert (Hg : negb (truthy fla) || negb (truthy flc) = true).
  { destruct H as [-> | ->]; [reflexivity | apply orb_true_r]. }
  rewrite (upload_data_guard _ _ _ _ _ _ Hg). split; reflexivity.
Qed.

Lemma upload_data_missing_floodlight_witness :
  (truthy JNull = false \/ truthy (JStr "") = false)
  /\ upload_data (Raise (RemoteError "DefaultCredentialsError"))
       (JArr (sample_rows 3)) (JStr "1234") (JStr "") JNull initial
     = (Ret tt, printed initial [PrintStarting; PrintMissingFloodlight])
  /\ calls (snd (upload_data (Raise (RemoteError "DefaultCredentialsError"))
                   (JArr (sample_rows 3)) (JStr "1234") (JStr "") JNull
                   initial)) = calls initial.
Proof.
  split; [left; reflexivity |].
  apply (upload_data_missing_floodlight
           (Raise (RemoteError "DefaultCredentialsError"))
           (JArr (sample_rows 3)) (JStr "1234") (JStr "") JNull initial).
  left. reflexivity.
Defined.

(* ================================================================= *)
(** * The walk of the response (lines 108-119) *)

Lemma for_each_app {A : Type} (l1 l2 : list A) (body : A -> M unit) w :
  for_each (l1 ++ l2) body w
  = bind (for_each l1 body) (fun _ => for_each l2 body) w.
Proof.
  revert w. induction l1 as [|x l1 IH]; intros w; simpl.
  - reflexivity.
  - unfold bind in *. destruct (body x w) as [[[] | e] w1]; [| reflexivity].
    apply IH.
Qed.

Lemma printed_printed w es es' :
  printed (printed w es) es' = printed w (es ++ es').
Proof. unfold printed. simpl. now rewrite app_assoc. Qed.

Lemma printed_nil w : printed w [] = w.
Proof. destruct w. unfold printed. simpl. now rewrite List.app_nil_r. Qed.

Lemma report_response_walk response lines w :
  failed_lines response lines ->
  report_response response w = for_each lines report_line w.
Proof.
  intros (hf & status & Hhf & Htruthy & Hstatus & Hlines).
  unfold report_response, bind, lift.
  now rewrite Hhf, Htruthy, Hstatus, Hlines.
Qed.

(** The walk goes on after a line that returns. *)
Lemma walk_through pre line post w w1 w2 :
  for_each pre report_line w = (Ret tt, w1) ->
  report_line line w1 = (Ret tt, w2) ->
  for_each (pre ++ line :: post) report_line w
  = for_each post report_line w2.
Proof.
  intros Hpre Hline. rewrite for_each_app. unfold bind. rewrite Hpre.
  simpl. unfold bind. now rewrite Hline.
Qed.

Lemma report_inserted_str line g w :
  subscript line "gclid" = Ret (JStr g) ->
  report_inserted line w = (Ret tt, printed w [PrintLineInserted g]).
Proof.
  intros H. unfold report_inserted, bind, lift. now rewrite H.
Qed.

Lemma report_line_no_errors line g w :
  (exists e, subscript line "errors" = Raise e) ->
  subscript line "gclid" = Ret (JStr g) ->
  report_line line w = (Ret tt, printed w [PrintLineInserted g]).
Proof.
  intros [e He] Hg. unfold report_line, try_except, report_errors, bind, lift.
  rewrite He. now apply report_inserted_str.
Qed.

Lemma report_entry_prints line conversion entry w :
  subscript line "conversion" = Ret conversion ->
  error_entry entry = true ->
  report_entry line entry w
  = (Ret tt, printed w (error_report conversion entry)).
Proof.
  intros Hconv Hentry. apply andb_prop in Hentry as [Hcode Hmsg].
  unfold has_key in Hcode, Hmsg.
  unfold report_entry, error_report, field, bind, lift, print, printed.
  rewrite Hconv.
  destruct (subscript entry "code") as [code |]; [| discriminate Hcode].
  destruct (subscript entry "message") as [message |]; [| discriminate Hmsg].
  simpl. now rewrite <- app_assoc.
Qed.

Lemma report_entries conversion line entries :
  subscript line "conversion" = Ret conversion ->
  forallb error_entry entries = true ->
  forall w,
    for_each entries (report_entry line) w
    = (Ret tt, printed w (flat_map (error_report conversion) entries)).
Proof.
  intros Hconv. induction entries as [|entry entries IH]; intros Hall w.
  - simpl. now rewrite printed_nil.
  - simpl in Hall. apply andb_prop in Hall as [Hentry Hall].
    cbn [for_each flat_map]. unfold bind.
    rewrite (report_entry_prints line conversion entry w Hconv Hentry).
    now rewrite (IH Hall), printed_printed.
Qed.

Lemma report_errors_entries line conversion errors entries w :
  subscript line "errors" = Ret errors ->
  truthy errors = true ->
  py_iter errors = Ret entries ->
  subscript line "conversion" = Ret conversion ->
  forallb error_entry entries = true ->
  report_errors line w
  = (Ret tt, printed w (flat_map (error_report conversion) entries)).
Proof.
  intros Herr Htruthy Hiter Hconv Hentries.
  unfold report_errors, bind, lift. rewrite Herr, Htruthy, Hiter.
  apply (report_entries conversion line entries Hconv Hentries).
Qed.

Lemma report_line_errors line conversion errors entries w :
  subscript line "errors" = Ret errors ->
  truthy errors = true ->
  py_iter errors = Ret entries ->
  subscript line "conversion" = Ret conversion ->
  forallb error_entry entries = true ->
  report_line line w
  = (Ret tt, printed w (flat_map (error_report conversion) entries)).
Proof.
  intros Herr Htruthy Hiter Hconv Hentries.
  unfold report_line, try_except.
  now rewrite (report_errors_entries line conversion errors entries w).
Qed.

(** C9: when the response of a batch has [hasFailures] false, the batch
    is reported as a success and nothing is reported per line: the turn
    prints the request, the response, the success line and the closing
    line, and returns. *)
Theorem batch_without_failures svc rows p flc fla currentrow text
    body response has_failures w :
  window_body (slice rows currentrow
                 (Nat.min (currentrow + 100) (List.length rows)))
    fla flc text = Ret body ->
  svc (List.length (calls w)) p body = Ret response ->
  subscript response "hasFailures" = Ret has_failures ->
  truthy has_failures = false ->
  upload_window svc rows p flc fla currentrow text w
  = (Ret tt,
     World (calls w ++ [(p, body)])
       (stdout w ++ [PrintRequest p body; PrintResponse p body;
                     PrintBatchInserted; PrintFinished])).
Proof.
  intros Hbody Hsvc Hhf Hfalse.
  unfold upload_window, bind, lift, print, execute, report_response.
  rewrite Hbody. simpl. rewrite Hsvc. unfold bind, lift, print. simpl.
  rewrite Hhf, Hfalse. simpl. now rewrite <- !app_assoc.
Qed.

Lemma batch_without_failures_witness :
  upload_window service_ok (sample_rows 3) (JStr "1234") (JStr "5678")
    (JStr "9012") 0 request_head initial
  = (Ret tt,
     World [(JStr "1234",
             batch_request
               (conversions_of (JStr "9012") (JStr "5678") (sample_rows 3)))]
       [PrintRequest (JStr "1234")
          (batch_request
             (conversions_of (JStr "9012") (JStr "5678") (sample_rows 3)));
        PrintResponse (JStr "1234")
          (batch_request
             (conversions_of (JStr "9012") (JStr "5678") (sample_rows 3)));
        PrintBatchInserted; PrintFinished]).
Proof.
  apply (batch_without_failures service_ok (sample_rows 3) (JStr "1234")
           (JStr "5678") (JStr "9012") 0 request_head
           (batch_request
              (conversions_of (JStr "9012") (JStr "5678") (sample_rows 3)))
           response_ok (JBool false) initial);
    vm_compute; reflexivity.
Defined.

(** C7, amended: in a response with failures, a status line that the walk
    reaches (the lines before it are walked without exception) and that
    carries a conversion and one or more error entries, each with a code
    and a message, has each (code, message) pair reported, in order, next
    to the serialized conversion of that same line; the walk then goes on
    with the lines that follow. *)
Theorem error_entries_reported response pre line post
    conversion errors entries w w1 :
  failed_lines response (pre ++ line :: post) ->
  for_each pre report_line w = (Ret tt, w1) ->
  subscript line "conversion" = Ret conversion ->
  subscript line "errors" = Ret errors ->
  py_iter errors = Ret entries ->
  entries <> [] ->
  truthy errors = true ->
  forallb error_entry entries = true ->
  report_line line w1
  = (Ret tt, printed w1 (flat_map (error_report conversion) entries))
  /\ report_response response w
     = for_each post report_line
         (printed w1 (flat_map (error_report conversion) entries)).
Proof.
  intros Hlines Hpre Hconv Herr Hiter _ Htruthy Hentries.
  assert (Hline : report_line line w1
                  = (Ret tt,
                     printed w1 (flat_map (error_report conversion) entries)))
    by (eapply report_line_errors; eauto).
  split; [exact Hline |].
  rewrite (report_response_walk _ _ _ Hlines).
  now apply walk_through with (w1 := w1).
Qed.

Lemma error_entries_reported_witness :
  report_line
    (JObj [("conversion", JObj [("gclid", JStr "CjwKCAjw")]);
           ("errors",
            JArr [JObj [("code", JStr "INVALID_ARGUMENT");
                        ("message", JStr "Bad timestamp")];
                  JObj [("code", JStr "PERMISSION_DENIED");
                        ("message", JStr "No access")]])])
    (printed initial
       [PrintErrorInLine (json_dumps (JObj [("gclid", JStr "Cj0KCQjw")]));
        PrintErrorDetail (JStr "NOT_FOUND") (JStr "Floodlight not found");
        PrintLineInserted "EAIaIQob"])
  = (Ret tt,
     printed
       (printed initial
          [PrintErrorInLine (json_dumps (JObj [("gclid", JStr "Cj0KCQjw")]));
           PrintErrorDetail (JStr "NOT_FOUND") (JStr "Floodlight not found");
           PrintLineInserted "EAIaIQob"])
       [PrintErrorInLine (json_dumps (JObj [("gclid", JStr "CjwKCAjw")]));
        PrintErrorDetail (JStr "INVALID_ARGUMENT") (JStr "Bad timestamp");
        PrintErrorInLine (json_dumps (JObj [("gclid", JStr "CjwKCAjw")]));
        PrintErrorDetail (JStr "PERMISSION_DENIED") (JStr "No access")])
  /\ report_response response_mixed initial
     = for_each [] report_line
         (printed
            (printed initial
               [PrintErrorInLine
                  (json_dumps (JObj [("gclid", JStr "Cj0KCQjw")]));
                PrintErrorDetail (JStr "NOT_FOUND")
                  (JStr "Floodlight not found");
                PrintLineInserted "EAIaIQob"])
            [PrintErrorInLine (json_dumps (JObj [("gclid", JStr "CjwKCAjw")]));
             PrintErrorDetail (JStr "INVALID_ARGUMENT") (JStr "Bad timestamp");
             PrintErrorInLine (json_dumps (JObj [("gclid", JStr "CjwKCAjw")]));
             PrintErrorDetail (JStr "PERMISSION_DENIED") (JStr "No access")]).
Proof.
  apply (error_entries_reported response_mixed
           [JObj [("conversion", JObj [("gclid", JStr "Cj0KCQjw")]);
                  ("errors",
                   JArr [JObj [("code", JStr "NOT_FOUND");
                               ("message", JStr "Floodlight not found")]])];
            JObj [("gclid", JStr "EAIaIQob")]]
           (JObj [("conversion", JObj [("gclid", JStr "CjwKCAjw")]);
                  ("errors",
                   JArr [JObj [("code", JStr "INVALID_ARGUMENT");
                               ("message", JStr "Bad timestamp")];
                         JObj [("code", JStr "PERMISSION_DENIED");
                               ("message", JStr "No access")]])])
           []
           (JObj [("gclid", JStr "CjwKCAjw")])
           (JArr [JObj [("code", JStr "INVALID_ARGUMENT");
                        ("message", JStr "Bad timestamp")];
                  JObj [("code", JStr "PERMISSION_DENIED");
                        ("message", JStr "No access")]])
           [JObj [("code", JStr "INVALID_ARGUMENT");
                  ("message", JStr "Bad timestamp")];
            JObj [("code", JStr "PERMISSION_DENIED");
                  ("message", JStr "No access")]]
           initial
           (printed initial
              [PrintErrorInLine
                 (json_dumps (JObj [("gclid", JStr "Cj0KCQjw")]));
               PrintErrorDetail (JStr "NOT_FOUND")
                 (JStr "Floodlight not found");
               PrintLineInserted "EAIaIQob"])).
  - exists (JBool true). eexists. repeat split; reflexivity.
  - reflexivity.
  - reflexivity.
  - reflexivity.
  - reflexivity.
  - discriminate.
  - reflexivity.
  - reflexivity.
Defined.

(** C7 as stated fails, in three ways.  When an accepted conversion,
    listed the way the API lists it, comes before the line with the entry
    of code [X] and message [Y], the walk raises on the accepted line and
    the pair is never reported: nothing is printed.  On a line whose
    second entry has no message, the third entry, which has a code and a
    message, is never reported.  On a line without a conversion, no entry
    is reported. *)
Lemma error_entries_reported_counterexample :
  (failed_lines response_accepted_rejected [status_accepted; status_rejected]
   /\ subscript status_rejected "errors"
      = Ret (JArr [JObj [("code", JStr "X"); ("message", JStr "Y")]])
   /\ report_response response_accepted_rejected initial
      = (Raise (KeyError "gclid"), initial))
  /\ report_line status_half_entry initial
     = (Ret tt,
        printed initial
          [PrintErrorInLine (json_dumps (JObj [("gclid", JStr "CjwKCAjw")]));
           PrintErrorDetail (JStr "INVALID_ARGUMENT") (JStr "Bad timestamp");
           PrintErrorInLine (json_dumps (JObj [("gclid", JStr "CjwKCAjw")]));
           PrintLineInserted "CjwKCAjw"])
  /\ report_response response_no_conversion initial
     = (Ret tt, printed initial [PrintLineInserted "EAIaIQob"]).
Proof.
  split; [| split; reflexivity].
  split; [| split; reflexivity].
  exists (JBool true). eexists. repeat split; reflexivity.
Qed.

(** C5 fails on the status line the API returns for an accepted
    conversion, which has neither [errors] nor [gclid] at its top level:
    the handler of the bare [except] reads [line['gclid']] and raises, so
    the line is not reported as inserted; the walk ends on it, the lines
    that follow are not visited, and a response with such a line is never
    walked to its end. *)
Theorem line_without_gclid_aborts response pre line post e e' :
  failed_lines response (pre ++ line :: post) ->
  subscript line "errors" = Raise e ->
  subscript line "gclid" = Raise e' ->
  (forall w, report_line line w = (Raise e', w))
  /\ (forall w w1,
         for_each pre report_line w = (Ret tt, w1) ->
         report_response response w = (Raise e', w1))
  /\ (forall w, exists e'' w',
         report_response response w = (Raise e'', w')).
Proof.
  intros Hlines Herr Hg.
  assert (Hline : forall w, report_line line w = (Raise e', w)).
  { intros w.
    unfold report_line, try_except, report_errors, bind, lift.
    rewrite Herr. unfold report_inserted, bind, lift. now rewrite Hg. }
  split; [exact Hline |]. split.
  - intros w w1 Hpre. rewrite (report_response_walk _ _ _ Hlines).
    rewrite for_each_app. unfold bind. rewrite Hpre.
    simpl. unfold bind. now rewrite Hline.
  - intros w. rewrite (report_response_walk _ _ _ Hlines).
    rewrite for_each_app. unfold bind.
    destruct (for_each pre report_line w) as [[[] | e1] w1].
    + exists e', w1. simpl. unfold bind. now rewrite Hline.
    + now exists e1, w1.
Qed.

Lemma line_without_gclid_aborts_witness :
  report_line status_accepted initial = (Raise (KeyError "gclid"), initial)
  /\ report_response response_accepted_between initial
     = (Raise (KeyError "gclid"),
        printed initial [PrintLineInserted "EAIaIQob"]).
Proof.
  destruct (line_without_gclid_aborts response_accepted_between
              [JObj [("gclid", JStr "EAIaIQob")]] status_accepted
              [JObj [("gclid", JStr "CjwKCAjw")]]
              (KeyError "errors") (KeyError "gclid"))
    as (Hline & Hwalk & _).
  - exists (JBool true). eexists. repeat split; reflexivity.
  - reflexivity.
  - reflexivity.
  - split; [apply Hline | apply Hwalk; reflexivity].
Defined.

(** C10, amended: a status line with a non-empty [errors] list, no
    [conversion] field and a [gclid] field that is a string is reported
    as inserted, and none of its error entries is reported. *)
Theorem errors_without_conversion_suppressed line entry entries gclid w :
  subscript line "errors" = Ret (JArr (entry :: entries)) ->
  (exists e, subscript line "conversion" = Raise e) ->
  subscript line "gclid" = Ret (JStr gclid) ->
  report_line line w = (Ret tt, printed w [PrintLineInserted gclid]).
Proof.
  intros Herr [e Hconv] Hg.
  unfold report_line, try_except, report_errors, bind, lift.
  rewrite Herr. simpl. unfold report_entry, bind, lift. rewrite Hconv.
  now apply report_inserted_str.
Qed.

Lemma errors_without_conversion_suppressed_witness :
  report_line
    (JObj [("gclid", JStr "EAIaIQob");
           ("errors",
            JArr [JObj [("code", JStr "NOT_FOUND");
                        ("message", JStr "Floodlight not found")]])])
    initial
  = (Ret tt, printed initial [PrintLineInserted "EAIaIQob"]).
Proof.
  apply (errors_without_conversion_suppressed
           (JObj [("gclid", JStr "EAIaIQob");
                  ("errors",
                   JArr [JObj [("code", JStr "NOT_FOUND");
                               ("message", JStr "Floodlight not found")]])])
           (JObj [("code", JStr "NOT_FOUND");
                  ("message", JStr "Floodlight not found")])
           [] "EAIaIQob" initial).
  - reflexivity.
  - exists (KeyError "conversion"). reflexivity.
  - reflexivity.
Defined.

(** C10 as stated fails: with an error entry and neither [conversion] nor
    [gclid], the line is not reported as inserted; the handler raises on
    the missing [gclid] and nothing is printed. *)
Lemma errors_without_conversion_counterexample :
  subscript status_bare_error "conversion" = Raise (KeyError "conversion")
  /\ report_line status_bare_error initial
     = (Raise (KeyError "gclid"), initial).
Proof. split; reflexivity. Qed.

(* ================================================================= *)
(** * [main] *)

Lemma get_or_none_dict kv k w :
  get_or_none (JObj kv) k w = (Ret (field (JObj kv) k), w).
Proof.
  unfold get_or_none, field, bind, lift, ret. simpl.
  destruct (dict_get kv k); reflexivity.
Qed.

Lemma field_dict kv k :
  field (JObj kv) k
  = match dict_get kv k with Some x => x | None => JNull end.
Proof. unfold field. simpl. destruct (dict_get kv k); reflexivity. Qed.

(** X1: when [config] is there and one of the three identifiers is absent
    or empty, [main] reports the missing values and returns without calling
    [upload_data]. *)
Lemma main_missing_identifier setup json_payload data conversion_data config w :
  subscript json_payload "data" = Ret (JObj data) ->
  dict_get data "conversions" = Some conversion_data ->
  truthy conversion_data = true ->
  dict_get data "config" = Some (JObj config) ->
  truthy (field (JObj config) "profile_id")
  && truthy (field (JObj config) "floodlight_activity_id")
  && truthy (field (JObj config) "floodlight_configuration_id") = false ->
  main setup json_payload w
  = (Ret tt, printed w [PrintPayload json_payload; PrintMissingValues]).
Proof.
  intros Hdata Hconv Htruthy Hconfig Hmissing.
  unfold main. unfold bind at 1. unfold print at 1.
  unfold bind at 1. unfold lift at 1. rewrite Hdata.
  unfold bind at 1. rewrite get_or_none_dict.
  unfold bind at 1. rewrite get_or_none_dict.
  rewrite !(field_dict data), Hconv, Hconfig, Htruthy.
  unfold bind at 1. rewrite get_or_none_dict.
  unfold bind at 1. rewrite get_or_none_dict.
  unfold bind at 1. rewrite get_or_none_dict.
  rewrite Hmissing. unfold print, printed. simpl. now rewrite <- app_assoc.
Qed.

(** C4 fails on a payload without [config]: [config] is then [None], the
    membership test of line 140 raises [TypeError], and [main] ends with
    that exception instead of the report of line 153.  No upload call is
    made. *)
Theorem main_without_config_raises setup json_payload data conversion_data w :
  subscript json_payload "data" = Ret (JObj data) ->
  dict_get data "conversions" = Some conversion_data ->
  truthy conversion_data = true ->
  dict_get data "config" = None ->
  main setup json_payload w
  = (Raise TypeError, printed w [PrintPayload json_payload]).
Proof.
  intros Hdata Hconv Htruthy Hconfig.
  unfold main. unfold bind at 1. unfold print at 1.
  unfold bind at 1. unfold lift at 1. rewrite Hdata.
  unfold bind at 1. rewrite get_or_none_dict.
  unfold bind at 1. rewrite get_or_none_dict.
  rewrite !(field_dict data), Hconv, Hconfig, Htruthy.
  reflexivity.
Qed.

Lemma main_without_config_raises_witness :
  main (Ret service_ok) payload_without_config initial
  = (Raise TypeError, printed initial [PrintPayload payload_without_config]).
Proof.
  apply (main_without_config_raises (Ret service_ok) payload_without_config
           [("conversions", JArr (sample_rows 1))]
           (JArr (sample_rows 1)) initial);
    reflexivity.
Defined.

(* ================================================================= *)
(** * The batches *)

Lemma conversion_dict_carries fla flc row c :
  conversion_dict row fla flc = Ret c -> carries fla flc row c.
Proof.
  unfold conversion_dict, carries.
  destruct (subscript row "conversionVisitExternalClickId"); [| discriminate].
  destruct (subscript row "conversionId"); [| discriminate].
  destruct (subscript row "conversionTimestampMicros"); [| discriminate].
  destruct (subscript row "conversionRevenue"); [| discriminate].
  destruct (subscript row "conversionQuantity"); [| discriminate].
  intros [= <-]. repeat split. eexists. split; reflexivity.
Qed.




Lemma conversions_of_records fla flc window :
  forallb conversion_record window = true ->
  unique_keys fla = true -> unique_keys flc = true ->
  Forall2 (fun row c => conversion_dict row fla flc = Ret c)
    window (conversions_of fla flc window)
  /\ Forall (fun c => unique_keys c = true) (conversions_of fla flc window).
Proof.
  intros Hrows Hfla Hflc. induction window as [|row window IH].
  - split; constructor.
  - simpl in Hrows. apply andb_prop in Hrows as [Hrow Hrows].
    destruct (IH Hrows) as [H2 Hu].
    destruct (conversion_dict_record fla flc row Hrow Hfla Hflc)
      as (c & Hc & Huc & _).
    unfold conversions_of in *. simpl. rewrite Hc. simpl.
    split; constructor; auto.
Qed.

Lemma window_body_records fla flc window :
  window <> [] ->
  forallb conversion_record window = true ->
  unique_keys fla = true -> unique_keys flc = true ->
  window_body window fla flc request_head
  = Ret (batch_request (conversions_of fla flc window)).
Proof.
  intros Hne Hrows Hfla Hflc.
  destruct (conversions_of_records fla flc window Hrows Hfla Hflc)
    as [H2 Hu].
  now apply window_body_dicts.
Qed.

(** C6: the request body built for a window of conversion records is an
    object with the batch-insert kind marker and one conversion object
    per record of the window, in order; each conversion object has the
    eight keys of a conversion, the conversion kind marker, the click id,
    ordinal, timestamp, value and quantity read from its record, and the
    two floodlight ids of the call. *)
Theorem request_body_of_window window fla flc :
  window <> [] ->
  forallb conversion_record window = true ->
  unique_keys fla = true ->
  unique_keys flc = true ->
  exists conversions,
    window_body window fla flc request_head
    = Ret (JObj [("kind", JStr "dfareporting#conversionsBatchInsertRequest");
                 ("conversions", JArr conversions)])
    /\ Forall2 (carries fla flc) window conversions.
Proof.
  intros Hne Hrows Hfla Hflc. exists (conversions_of fla flc window).
  split; [now apply window_body_records |].
  destruct (conversions_of_records fla flc window Hrows Hfla Hflc)
    as [H2 _].
  eapply Forall2_impl; [| exact H2].
  intros row c Hc. now apply conversion_dict_carries.
Qed.

Lemma request_body_of_window_witness :
  exists conversions,
    window_body [sample_row "Cj0KCQjw" 7; sample_float_row]
      (JStr "9012") (JStr "5678") request_head
    = Ret (JObj [("kind", JStr "dfareporting#conversionsBatchInsertRequest");
                 ("conversions", JArr conversions)])
    /\ Forall2 (carries (JStr "9012") (JStr "5678"))
         [sample_row "Cj0KCQjw" 7; sample_float_row] conversions.
Proof.
  apply (request_body_of_window [sample_row "Cj0KCQjw" 7; sample_float_row]
           (JStr "9012") (JStr "5678")).
  - discriminate.
  - reflexivity.
  - reflexivity.
  - reflexivity.
Defined.

(** The request body of a record whose revenue is the float [25.99]: the
    text of line 102 has the literal [25.99], and the body holds the same
    float. *)
Lemma request_body_float_value :
  json_dumps (JFloat (pyfloat_of_decimal 2599 (-2))) = "25.99"
  /\ json_loads "25.99" = Ret (JFloat (pyfloat_of_decimal 2599 (-2)))
  /\ window_body [sample_float_row] (JStr "9012") (JStr "5678") request_head
     = Ret (batch_request
              [JObj [("kind", JStr "dfareporting#conversion");
                     ("gclid", JStr "EAIaIQob");
                     ("floodlightActivityId", JStr "9012");
                     ("floodlightConfigurationId", JStr "5678");
                     ("ordinal", JNum 42);
                     ("timestampMicros", JNum 1617235200000000);
                     ("value", JFloat (pyfloat_of_decimal 2599 (-2)));
                     ("quantity", JFloat (pyfloat_of_decimal 15 (-1)))]]).
Proof. vm_compute. repeat split. Qed.

(* ================================================================= *)
(** * The run of [upload_data] *)

Lemma Forall2_concat {A B : Type} (R : A -> B -> Prop) ls ls' :
  Forall2 (Forall2 R) ls ls' ->
  Forall2 R (List.concat ls) (List.concat ls').
Proof.
  induction 1 as [|l l' ls ls' Hl _ IH]; simpl.
  - constructor.
  - now apply Forall2_app.
Qed.






Lemma conversions_of_length fla flc window :
  forallb conversion_record window = true ->
  unique_keys fla = true -> unique_keys flc = true ->
  List.length (conversions_of fla flc window) = List.length window.
Proof.
  intros Hrows Hfla Hflc.
  destruct (conversions_of_records fla flc window Hrows Hfla Hflc) as [H _].
  symmetry. eapply Forall2_length; eauto.
Qed.

Lemma forallb_window rows k (f : json -> bool) :
  forallb f rows = true -> forallb f (window rows k) = true.
Proof.
  rewrite !forallb_forall. intros H x Hx. eapply H, window_incl; eauto.
Qed.

Lemma window_size rows k :
  List.length (window rows k) = Nat.min 100 (List.length rows - 100 * k).
Proof. now rewrite window_firstn, length_firstn, length_skipn. Qed.

(** The body of every turn of the loop on conversion records. *)
Lemma turn_bodies rows fla flc k :
  forallb conversion_record rows = true ->
  unique_keys fla = true -> unique_keys flc = true ->
  k < window_count (List.length rows) ->
  window_body (window rows k) fla flc request_head
  = Ret (batch_request (conversions_of fla flc (window rows k))).
Proof.
  intros Hrows Hfla Hflc Hk. apply window_body_records; auto.
  - now apply window_nonempty.
  - now apply forallb_window.
Qed.

(** C2, amended: on [N] conversion records and with both floodlight ids
    set, against a service that answers every call with a response the
    walk gets through, [upload_data] returns after exactly
    [ceil (N / 100)] upload calls, the call number [k] carrying
    [min 100 (N - 100 k)] conversions; no call for no record, and three
    calls of 100, 100 and 50 conversions for 250 records. *)
Theorem upload_call_count svc rows p flc fla :
  truthy fla = true ->
  truthy flc = true ->
  unique_keys fla = true ->
  unique_keys flc = true ->
  forallb conversion_record rows = true ->
  (forall n body, exists r, svc n p body = Ret r /\ reports_cleanly r) ->
  fst (upload_data (Ret svc) (JArr rows) p flc fla initial) = Ret tt
  /\ List.length
       (calls (snd (upload_data (Ret svc) (JArr rows) p flc fla initial)))
     = (List.length rows + 99) / 100
  /\ map batch_size
       (calls (snd (upload_data (Ret svc) (JArr rows) p flc fla initial)))
     = map (fun k => Nat.min 100 (List.length rows - 100 * k))
         (seq 0 ((List.length rows + 99) / 100))
  /\ (List.length rows = 0 ->
      calls (snd (upload_data (Ret svc) (JArr rows) p flc fla initial)) = [])
  /\ (List.length rows = 250 ->
      map batch_size
        (calls (snd (upload_data (Ret svc) (JArr rows) p flc fla initial)))
      = [100; 100; 50]).
Proof.
  intros Hfla Hflc Ufla Uflc Hrows Hsvc.
  rewrite upload_data_loop by assumption.
  fold (window_count (List.length rows)).
  destruct (turns_return svc rows p flc fla
              (fun k => batch_request (conversions_of fla flc (window rows k)))
              (window_count (List.length rows))
              (seq 0 (window_count (List.length rows))))
    with (w := printed initial [PrintStarting; PrintAuthorized])
    as [Hret Hcalls].
  { intros k Hk. apply in_seq in Hk. apply turn_bodies; auto. lia. }
  { intros n body _. apply Hsvc. }
  { rewrite length_seq. simpl. lia. }
  change (calls (printed initial [PrintStarting; PrintAuthorized])) with
    (@nil request) in Hcalls.
  rewrite List.app_nil_l in Hcalls. rewrite Hcalls.
  assert (Hsizes :
           map batch_size
             (map (fun k => (p, batch_request
                                  (conversions_of fla flc (window rows k))))
                (seq 0 (window_count (List.length rows))))
           = map (fun k => Nat.min 100 (List.length rows - 100 * k))
               (seq 0 (window_count (List.length rows)))).
  { rewrite map_map. apply map_ext_in. intros k Hk.
    unfold batch_size. cbn [snd batch_request subscript dict_get String.eqb].
    simpl.
    rewrite conversions_of_length; auto using forallb_window.
    apply window_size. }
  split; [exact Hret |]. split; [now rewrite length_map, length_seq |].
  split; [exact Hsizes |]. split.
  - intros H0. rewrite H0. reflexivity.
  - intros H250. rewrite Hsizes, H250. reflexivity.
Qed.

Lemma service_ok_reports n p body :
  exists r, service_ok n p body = Ret r /\ reports_cleanly r.
Proof. exists response_ok. split; [reflexivity | intros w; reflexivity]. Qed.

Lemma upload_call_count_witness :
  fst (upload_data (Ret service_ok) (JArr (sample_rows 250)) (JStr "1234")
         (JStr "5678") (JStr "9012") initial) = Ret tt
  /\ List.length
       (calls (snd (upload_data (Ret service_ok) (JArr (sample_rows 250))
                      (JStr "1234") (JStr "5678") (JStr "9012") initial)))
     = 3.
Proof.
  destruct (upload_call_count service_ok (sample_rows 250) (JStr "1234")
              (JStr "5678") (JStr "9012"))
    as (Hret & Hcount & _); try reflexivity.
  - intros n body. apply service_ok_reports.
  - split; [exact Hret | exact Hcount].
Defined.

(** C2 as stated fails: with both floodlight ids set and 250 records,
    [upload_data] makes two calls, not three, when the second response
    lists an accepted conversion the way the API does, and also when the
    second call fails in transport. *)
Lemma upload_call_count_counterexample :
  truthy (JStr "9012") = true
  /\ truthy (JStr "5678") = true
  /\ List.length (sample_rows 250) = 250
  /\ forallb conversion_record (sample_rows 250) = true
  /\ (250 + 99) / 100 = 3
  /\ List.length
       (calls (snd (upload_data (Ret service_accepts_second)
                      (JArr (sample_rows 250))
                      (JStr "1234") (JStr "5678") (JStr "9012") initial)))
     = 2
  /\ List.length
       (calls (snd (upload_data (Ret service_fails_second)
                      (JArr (sample_rows 250))
                      (JStr "1234") (JStr "5678") (JStr "9012") initial)))
     = 2.
Proof. vm_compute. repeat split. Qed.

Lemma main_uploads setup rows p fla flc w :
  rows <> [] ->
  truthy p = true -> truthy fla = true -> truthy flc = true ->
  main setup (pubsub_payload rows p fla flc) w
  = upload_data setup (JArr rows) p flc fla
      (printed w [PrintPayload (pubsub_payload rows p fla flc)]).
Proof.
  intros Hrows Hp Hfla Hflc.
  unfold main. unfold bind at 1. unfold print at 1.
  unfold bind at 1. unfold lift at 1.
  change (subscript (pubsub_payload rows p fla flc) "data")
    with (Ret (JObj [("conversions", JArr rows);
                     ("config",
                      JObj [("profile_id", p);
                            ("floodlight_activity_id", fla);
                            ("floodlight_configuration_id", flc)])])).
  unfold bind at 1. rewrite get_or_none_dict.
  unfold bind at 1. rewrite get_or_none_dict.
  rewrite !field_dict. cbn [dict_get String.eqb Ascii.eqb Bool.eqb].
  assert (Ht : truthy (JArr rows) = true) by (destruct rows; [congruence | reflexivity]).
  rewrite Ht.
  unfold bind at 1. rewrite get_or_none_dict.
  unfold bind at 1. rewrite get_or_none_dict.
  unfold bind at 1. rewrite get_or_none_dict.
  rewrite !field_dict. cbn [dict_get String.eqb Ascii.eqb Bool.eqb].
  rewrite Hp, Hfla, Hflc. reflexivity.
Qed.

Lemma window_count_pos (rows : list json) k :
  k < window_count (List.length rows) -> rows <> [].
Proof.
  intros Hk ->. unfold window_count in Hk. simpl in Hk. lia.
Qed.

(** C3: when the call for the batch number [k] (from 0) raises a
    transport or API error, [upload_data] does not catch it and neither
    does [main]: the invocation ends with that error, and the call that
    raised is the last one made, so [k + 1] calls in all (two when the
    second batch of three fails). *)
Theorem remote_error_stops_upload svc rows p flc fla k e :
  truthy p = true ->
  truthy fla = true ->
  truthy flc = true ->
  unique_keys fla = true ->
  unique_keys flc = true ->
  forallb conversion_record rows = true ->
  k < (List.length rows + 99) / 100 ->
  (forall n body, n < k ->
     exists r, svc n p body = Ret r /\ reports_cleanly r) ->
  (forall body, svc k p body = Raise e) ->
  fst (upload_data (Ret svc) (JArr rows) p flc fla initial) = Raise e
  /\ List.length
       (calls (snd (upload_data (Ret svc) (JArr rows) p flc fla initial)))
     = S k
  /\ fst (main (Ret svc) (pubsub_payload rows p fla flc) initial) = Raise e
  /\ List.length
       (calls (snd (main (Ret svc) (pubsub_payload rows p fla flc) initial)))
     = S k.
Proof.
  intros Hp Hfla Hflc Ufla Uflc Hrows Hk Hgood Hbad.
  fold (window_count (List.length rows)) in Hk.
  assert (Hrun : forall w,
             calls w = [] ->
             fst (upload_data (Ret svc) (JArr rows) p flc fla w) = Raise e
             /\ List.length
                  (calls (snd (upload_data (Ret svc) (JArr rows) p flc fla w)))
                = S k).
  { intros w Hw. rewrite upload_data_loop by assumption.
    replace (seq 0 (window_count (List.length rows)))
      with (seq 0 k
            ++ k :: seq (S k) (window_count (List.length rows) - S k)).
    2:{ change (k :: seq (S k) (window_count (List.length rows) - S k))
          with (seq k (S (window_count (List.length rows) - S k))).
        rewrite <- seq_app. f_equal. lia. }
    destruct (turns_remote_error svc rows p flc fla
                (fun j => batch_request
                            (conversions_of fla flc (window rows j)))
                (seq 0 k) k
                (seq (S k) (window_count (List.length rows) - S k)) e)
      with (w := printed w [PrintStarting; PrintAuthorized])
      as [Hraise Hcalls].
    - intros j Hj. apply turn_bodies; auto.
      apply in_app_or in Hj as [Hj | [<- | []]]; [| exact Hk].
      apply in_seq in Hj. lia.
    - rewrite length_seq. exact Hgood.
    - rewrite length_seq. exact Hbad.
    - exact Hw.
    - split; [exact Hraise |].
      rewrite Hcalls, length_map, length_app, length_seq. simpl. lia. }
  split; [apply Hrun; reflexivity |]. split; [apply Hrun; reflexivity |].
  rewrite main_uploads by (auto; exact (window_count_pos rows k Hk)).
  apply Hrun. reflexivity.
Qed.

Lemma remote_error_stops_upload_witness :
  fst (upload_data (Ret service_fails_second) (JArr (sample_rows 250))
         (JStr "1234") (JStr "5678") (JStr "9012") initial)
  = Raise (RemoteError "HttpError 503")
  /\ List.length
       (calls (snd (upload_data (Ret service_fails_second)
                      (JArr (sample_rows 250)) (JStr "1234") (JStr "5678")
                      (JStr "9012") initial)))
     = 2
  /\ fst (main (Ret service_fails_second)
            (pubsub_payload (sample_rows 250) (JStr "1234") (JStr "9012")
               (JStr "5678")) initial)
     = Raise (RemoteError "HttpError 503")
  /\ List.length
       (calls (snd (main (Ret service_fails_second)
                      (pubsub_payload (sample_rows 250) (JStr "1234")
                         (JStr "9012") (JStr "5678")) initial)))
     = 2.
Proof.
  apply (remote_error_stops_upload service_fails_second (sample_rows 250)
           (JStr "1234") (JStr "5678") (JStr "9012") 1
           (RemoteError "HttpError 503")); try reflexivity.
  - vm_compute. lia.
  - intros n body Hn. exists response_ok. split.
    + destruct n as [|n]; [reflexivity | lia].
    + intros w. reflexivity.
Defined.

(* ================================================================= *)
(** * The rest of the handler *)

(** ** The requests of a run *)

Lemma turns_prefix svc rows p flc fla ks :
  forall w,
    exists new n,
      n <= List.length ks
      /\ calls (snd (for_each ks (turn svc rows p flc fla) w)) = calls w ++ new
      /\ Forall2 (built_for rows p flc fla) new (firstn n ks).
Proof.
  induction ks as [|k ks IH]; intros w.
  - exists [], 0. simpl. rewrite List.app_nil_r. repeat split; constructor.
  - cbn [for_each]. unfold bind.
    destruct (window_body (window rows k) fla flc request_head)
      as [body | e] eqn:Hbody.
    + pose proof (turn_calls svc rows p flc fla k body w Hbody) as Hcalls.
      destruct (turn svc rows p flc fla k w) as [[[] | e] w1];
        simpl in Hcalls.
      * destruct (IH w1) as (new & n & Hn & Hnew & Hall).
        exists ((p, body) :: new), (S n). repeat split.
        -- simpl. lia.
        -- rewrite Hnew, Hcalls, <- app_assoc. reflexivity.
        -- simpl. constructor; [split; [reflexivity | exact Hbody] | exact Hall].
      * exists [(p, body)], 1. repeat split.
        -- simpl. lia.
        -- exact Hcalls.
        -- simpl. constructor; [split; [reflexivity | exact Hbody] |].
           constructor.
    + rewrite (turn_window_raises svc rows p flc fla k e w Hbody).
      exists [], 0. simpl. rewrite List.app_nil_r.
      repeat split; [lia | constructor].
Qed.

Lemma firstn_seq_le n : forall a m, n <= m -> firstn n (seq a m) = seq a n.
Proof.
  induction n as [|n IH]; intros a m Hn; [reflexivity |].
  destruct m as [|m]; [lia |]. simpl. f_equal. apply IH. lia.
Qed.

(** X2: whatever the service answers and however the run ends, the
    requests [upload_data] has made are those of the first windows of the
    rows, each built by lines 90-104 for its window, once and in order,
    all with the profile id of the call; there are at most
    [ceil (N / 100)] of them. *)
Theorem submitted_is_a_prefix setup rows p flc fla w :
  exists new n,
    n <= (List.length rows + 99) / 100
    /\ calls (snd (upload_data setup (JArr rows) p flc fla w)) = calls w ++ new
    /\ Forall2 (built_for rows p flc fla) new (seq 0 n).
Proof.
  destruct (negb (truthy fla) || negb (truthy flc)) eqn:Hguard.
  - rewrite (upload_data_guard _ _ _ _ _ _ Hguard).
    exists [], 0. simpl. rewrite List.app_nil_r.
    repeat split; [lia | constructor].
  - apply orb_false_iff in Hguard as [Hfla Hflc].
    apply negb_false_iff in Hfla, Hflc.
    destruct setup as [svc | e].
    + rewrite upload_data_loop by assumption.
      destruct (turns_prefix svc rows p flc fla
                  (seq 0 (window_count (List.length rows)))
                  (printed w [PrintStarting; PrintAuthorized]))
        as (new & n & Hn & Hnew & Hall).
      rewrite length_seq in Hn. rewrite firstn_seq_le in Hall by exact Hn.
      exists new, n. repeat split; assumption.
    + rewrite upload_data_setup_raises by assumption.
      exists [], 0. simpl. rewrite List.app_nil_r.
      repeat split; [lia | constructor].
Qed.

(** ** Where a run stops *)

(** The turns of [ks] all return and the turn [k] that follows raises:
    the loop ends there, in the world that turn leaves. *)
Lemma turns_stop svc rows p flc fla body_of ks k ks' e :
  (forall j, In j ks ->
     window_body (window rows j) fla flc request_head = Ret (body_of j)) ->
  (forall n body, n < List.length ks ->
     exists r, svc n p body = Ret r /\ reports_cleanly r) ->
  forall w,
    calls w = [] ->
    (forall w1,
       calls w1 = map (fun j => (p, body_of j)) ks ->
       fst (turn svc rows p flc fla k w1) = Raise e) ->
    exists w1,
      calls w1 = map (fun j => (p, body_of j)) ks
      /\ for_each (ks ++ k :: ks') (turn svc rows p flc fla) w
         = (Raise e, snd (turn svc rows p flc fla k w1)).
Proof.
  intros Hbody Hsvc w Hw Hraise.
  rewrite for_each_app. unfold bind.
  destruct (turns_return svc rows p flc fla body_of (List.length ks) ks
              Hbody Hsvc w) as [Hret Hcalls].
  { rewrite Hw. simpl. lia. }
  destruct (for_each ks (turn svc rows p flc fla) w) as [[[] | e0] w1];
    [| discriminate Hret].
  simpl in Hcalls. rewrite Hw in Hcalls. simpl in Hcalls.
  exists w1. split; [exact Hcalls |].
  cbn [for_each]. unfold bind. specialize (Hraise w1 Hcalls).
  destruct (turn svc rows p flc fla k w1) as [[[] | e1] w2];
    [discriminate Hraise |].
  simpl in Hraise. simpl. congruence.
Qed.

Lemma seq_split k n :
  k < n -> seq 0 n = seq 0 k ++ k :: seq (S k) (n - S k).
Proof.
  intros Hk.
  change (k :: seq (S k) (n - S k)) with (seq k (S (n - S k))).
  rewrite <- seq_app. f_equal. lia.
Qed.

Lemma turn_report_raises svc rows p flc fla k body r e w :
  window_body (window rows k) fla flc request_head = Ret body ->
  svc (List.length (calls w)) p body = Ret r ->
  (forall w', fst (report_response r w') = Raise e) ->
  fst (turn svc rows p flc fla k w) = Raise e.
Proof.
  intros H Hr Hraise. unfold turn, upload_window. fold (window rows k).
  unfold bind at 1. unfold lift at 1. rewrite H.
  unfold bind at 1. unfold print at 1.
  unfold bind at 1. unfold execute at 1. cbn [calls stdout]. rewrite Hr.
  unfold bind at 1. unfold print at 1.
  unfold bind at 1.
  match goal with
  | |- context [report_response r ?w0] =>
      specialize (Hraise w0); destruct (report_response r w0) as [[[] | e'] w']
  end; [discriminate Hraise | simpl in *; congruence].
Qed.

(** X3: when the response to the batch number [k] (from 0) cannot be
    walked, because [hasFailures] or [status] is missing or a status line
    makes the handler of line 119 raise, that exception leaves
    [upload_data]: the batch [k] has been submitted, the batches after it
    never are. *)
Theorem unreadable_response_stops_upload svc rows p flc fla k e :
  truthy fla = true ->
  truthy flc = true ->
  unique_keys fla = true ->
  unique_keys flc = true ->
  forallb conversion_record rows = true ->
  k < (List.length rows + 99) / 100 ->
  (forall n body, n < k ->
     exists r, svc n p body = Ret r /\ reports_cleanly r) ->
  (forall body,
     exists r, svc k p body = Ret r
               /\ forall w, fst (report_response r w) = Raise e) ->
  fst (upload_data (Ret svc) (JArr rows) p flc fla initial) = Raise e
  /\ List.length
       (calls (snd (upload_data (Ret svc) (JArr rows) p flc fla initial)))
     = S k.
Proof.
  intros Hfla Hflc Ufla Uflc Hrows Hk Hgood Hbad.
  fold (window_count (List.length rows)) in Hk.
  rewrite upload_data_loop by assumption.
  rewrite (seq_split k _ Hk).
  set (body_of := fun j =>
         batch_request (conversions_of fla flc (window rows j))).
  assert (Hbodies : forall j, j <= k ->
             window_body (window rows j) fla flc request_head
             = Ret (body_of j)).
  { intros j Hj. apply turn_bodies; auto. lia. }
  destruct (turns_stop svc rows p flc fla body_of (seq 0 k) k
              (seq (S k) (window_count (List.length rows) - S k)) e)
    with (w := printed initial [PrintStarting; PrintAuthorized])
    as (w1 & Hw1 & Hrun).
  - intros j Hj. apply in_seq in Hj. apply Hbodies. lia.
  - rewrite length_seq. exact Hgood.
  - reflexivity.
  - intros w1 Hw1.
    destruct (Hbad (body_of k)) as (r & Hr & Hraise).
    apply (turn_report_raises svc rows p flc fla k (body_of k) r); auto.
    now rewrite Hw1, length_map, length_seq.
  - rewrite Hrun. split; [reflexivity |]. cbn [snd].
    rewrite (turn_calls svc rows p flc fla k (body_of k) w1)
      by (apply Hbodies; lia).
    rewrite Hw1, length_app, length_map, length_seq. simpl. lia.
Qed.

Lemma unreadable_response_stops_upload_witness :
  fst (upload_data (Ret service_accepts_second) (JArr (sample_rows 250))
         (JStr "1234") (JStr "5678") (JStr "9012") initial)
  = Raise (KeyError "gclid")
  /\ List.length
       (calls (snd (upload_data (Ret service_accepts_second)
                      (JArr (sample_rows 250)) (JStr "1234") (JStr "5678")
                      (JStr "9012") initial)))
     = 2.
Proof.
  apply (unreadable_response_stops_upload service_accepts_second
           (sample_rows 250) (JStr "1234") (JStr "5678") (JStr "9012") 1
           (KeyError "gclid")); try reflexivity.
  - vm_compute. lia.
  - intros n body Hn. exists response_ok. split.
    + destruct n as [|n]; [reflexivity | lia].
    + intros w. reflexivity.
  - intros body. eexists. split; [reflexivity |]. intros w. reflexivity.
Defined.

Lemma append_conversions_raises fla flc good bad rest cs e :
  Forall2 (fun row c => conversion_dict row fla flc = Ret c) good cs ->
  conversion_dict bad fla flc = Raise e ->
  forall text,
    append_conversions (good ++ bad :: rest) fla flc text = Raise e.
Proof.
  intros Hgood Hbad. induction Hgood as [|row c good cs Hc _ IH];
    intros text; simpl.
  - now rewrite Hbad.
  - rewrite Hc. apply IH.
Qed.

Lemma window_of_prefix (good rest : list json) j :
  100 * j + 100 <= List.length good ->
  window (good ++ rest) j = window good j.
Proof.
  intros Hj. rewrite !window_firstn, skipn_app, firstn_app.
  replace (100 * j - List.length good) with 0 by lia.
  rewrite length_skipn.
  replace (100 - (List.length good - 100 * j)) with 0 by lia.
  simpl. now rewrite List.app_nil_r.
Qed.

Lemma window_at_boundary (good : list json) bad rest :
  window (good ++ bad :: rest) (List.length good / 100)
  = skipn (100 * (List.length good / 100)) good
    ++ bad :: firstn (99 - List.length good mod 100) rest.
Proof.
  pose proof (Nat.div_mod_eq (List.length good) 100) as E.
  pose proof (Nat.mod_upper_bound (List.length good) 100) as B.
  rewrite window_firstn, skipn_app, firstn_app.
  replace (100 * (List.length good / 100) - List.length good) with 0 by lia.
  rewrite length_skipn. cbn [skipn].
  rewrite firstn_all2 by (rewrite length_skipn; lia).
  replace (100 - (List.length good - 100 * (List.length good / 100)))
    with (S (99 - List.length good mod 100)) by lia.
  reflexivity.
Qed.

Lemma forallb_skipn {A : Type} (f : A -> bool) n l :
  forallb f l = true -> forallb f (skipn n l) = true.
Proof.
  rewrite !forallb_forall. intros H x Hx. apply H.
  rewrite <- (firstn_skipn n l). apply in_or_app. now right.
Qed.

(** X4: when a row cannot be turned into a conversion (a field of lines
    93-99 is missing, or the row is no dict) and the rows before it can,
    [upload_data] ends with the exception of that row.  The batches that
    lie entirely before the row have been submitted; the batch the row
    belongs to is not, nor is any later one. *)
Theorem malformed_record_stops_upload svc good bad rest p flc fla e :
  truthy fla = true ->
  truthy flc = true ->
  unique_keys fla = true ->
  unique_keys flc = true ->
  forallb conversion_record good = true ->
  conversion_dict bad fla flc = Raise e ->
  (forall n body, exists r, svc n p body = Ret r /\ reports_cleanly r) ->
  fst (upload_data (Ret svc) (JArr (good ++ bad :: rest)) p flc fla initial)
  = Raise e
  /\ List.length
       (calls (snd (upload_data (Ret svc) (JArr (good ++ bad :: rest))
                      p flc fla initial)))
     = List.length good / 100.
Proof.
  intros Hfla Hflc Ufla Uflc Hgood Hbad Hsvc.
  set (rows := good ++ bad :: rest).
  set (k := List.length good / 100).
  pose proof (Nat.div_mod_eq (List.length good) 100) as E.
  pose proof (Nat.mod_upper_bound (List.length good) 100) as B.
  assert (Hk : k < window_count (List.length rows)).
  { apply window_count_lt. unfold rows, k.
    rewrite length_app. cbn [List.length]. lia. }
  rewrite upload_data_loop by assumption.
  rewrite (seq_split k _ Hk).
  set (body_of := fun j =>
         batch_request (conversions_of fla flc (window rows j))).
  assert (Hwindow : window_body (window rows k) fla flc request_head
                    = Raise e).
  { unfold rows, k. rewrite window_at_boundary. unfold window_body.
    destruct (conversions_of_records fla flc
                (skipn (100 * (List.length good / 100)) good))
      as [Hcs _]; auto using forallb_skipn.
    now rewrite (append_conversions_raises _ _ _ _ _ _ _ Hcs Hbad). }
  destruct (turns_stop svc rows p flc fla body_of (seq 0 k) k
              (seq (S k) (window_count (List.length rows) - S k)) e)
    with (w := printed initial [PrintStarting; PrintAuthorized])
    as (w1 & Hw1 & Hrun).
  - intros j Hj. apply in_seq in Hj. unfold body_of.
    assert (Hj' : 100 * j + 100 <= List.length good) by (unfold k in Hj; lia).
    apply window_body_records; auto.
    + unfold rows. rewrite (window_of_prefix good (bad :: rest) j Hj').
      apply window_nonempty. apply window_count_lt. lia.
    + unfold rows. rewrite (window_of_prefix good (bad :: rest) j Hj').
      now apply forallb_window.
  - intros n body _. apply Hsvc.
  - reflexivity.
  - intros w1 _. now rewrite (turn_window_raises svc rows p flc fla k e w1).
  - rewrite Hrun. split; [reflexivity |].
    rewrite (turn_window_raises svc rows p flc fla k e w1 Hwindow).
    cbn [snd]. now rewrite Hw1, length_map, length_seq.
Qed.

Lemma malformed_record_stops_upload_witness :
  fst (upload_data (Ret service_ok)
         (JArr (sample_rows 230 ++ sample_bad_row :: sample_rows 90))
         (JStr "1234") (JStr "5678") (JStr "9012") initial)
  = Raise (KeyError "conversionQuantity")
  /\ List.length
       (calls (snd (upload_data (Ret service_ok)
                      (JArr (sample_rows 230 ++ sample_bad_row
                               :: sample_rows 90))
                      (JStr "1234") (JStr "5678") (JStr "9012") initial)))
     = List.length (sample_rows 230) / 100.
Proof.
  apply (malformed_record_stops_upload service_ok (sample_rows 230)
           sample_bad_row (sample_rows 90) (JStr "1234") (JStr "5678")
           (JStr "9012") (KeyError "conversionQuantity")); try reflexivity.
  intros n body. apply service_ok_reports.
Defined.

(** ** [main] on every payload *)

Lemma get_or_none_value d k w : get_or_none d k w = (key_or_none d k, w).
Proof.
  unfold get_or_none, key_or_none, bind, lift, ret.
  destruct (contains d k) as [[|] | e]; reflexivity.
Qed.

Lemma key_or_none_dict kv k : key_or_none (JObj kv) k = Ret (field (JObj kv) k).
Proof.
  unfold key_or_none, field. simpl. destruct (dict_get kv k); reflexivity.
Qed.

Lemma key_or_none_truthy d k v :
  key_or_none d k = Ret v -> truthy v = true ->
  exists kv, d = JObj kv /\ dict_get kv k = Some v.
Proof.
  unfold key_or_none. destruct d as [ | b | z | x | s | l | kv]; simpl;
    try discriminate.
  - destruct (index 0 k s); [discriminate |].
    intros [= <-]. discriminate.
  - destruct (existsb (is_str k) l); [discriminate |].
    intros [= <-]. discriminate.
  - destruct (dict_get kv k) as [x |] eqn:E; intros [= <-]; [| discriminate].
    intros _. exists kv. split; [reflexivity | exact E].
Qed.

(** [main] as a case analysis on what it reads from the payload. *)
Lemma main_cases setup json_payload w :
  main setup json_payload w
  = let w0 := printed w [PrintPayload json_payload] in
    match subscript json_payload "data" with
    | Raise e => (Raise e, w0)
    | Ret data =>
    match key_or_none data "conversions" with
    | Raise e => (Raise e, w0)
    | Ret conversion_data =>
    match key_or_none data "config" with
    | Raise e => (Raise e, w0)
    | Ret config =>
        if truthy conversion_data then
          match key_or_none config "profile_id" with
          | Raise e => (Raise e, w0)
          | Ret p =>
          match key_or_none config "floodlight_activity_id" with
          | Raise e => (Raise e, w0)
          | Ret fla =>
          match key_or_none config "floodlight_configuration_id" with
          | Raise e => (Raise e, w0)
          | Ret flc =>
              if truthy p && truthy fla && truthy flc
              then upload_data setup conversion_data p flc fla w0
              else (Ret tt, printed w0 [PrintMissingValues])
          end end end
        else (Ret tt, printed w0 [PrintNoConversionData])
    end end end.
Proof.
  unfold main. unfold bind at 1. unfold print at 1.
  change (World (calls w) (stdout w ++ [PrintPayload json_payload]))
    with (printed w [PrintPayload json_payload]).
  cbv zeta. set (w0 := printed w [PrintPayload json_payload]).
  unfold bind at 1. unfold lift at 1.
  destruct (subscript json_payload "data") as [data | e]; [| reflexivity].
  unfold bind at 1. rewrite get_or_none_value.
  destruct (key_or_none data "conversions") as [conv | e]; [| reflexivity].
  unfold bind at 1. rewrite get_or_none_value.
  destruct (key_or_none data "config") as [config | e]; [| reflexivity].
  destruct (truthy conv); [| reflexivity].
  unfold bind at 1. rewrite get_or_none_value.
  destruct (key_or_none config "profile_id") as [p | e]; [| reflexivity].
  unfold bind at 1. rewrite get_or_none_value.
  destruct (key_or_none config "floodlight_activity_id") as [fla | e];
    [| reflexivity].
  unfold bind at 1. rewrite get_or_none_value.
  destruct (key_or_none config "floodlight_configuration_id") as [flc | e];
    [| reflexivity].
  destruct (truthy p && truthy fla && truthy flc); reflexivity.
Qed.

Lemma main_configured setup json_payload conversion_data p fla flc w :
  configured json_payload conversion_data p fla flc ->
  main setup json_payload w
  = upload_data setup conversion_data p flc fla
      (printed w [PrintPayload json_payload]).
Proof.
  intros (data & config & Hdata & Hconv & Hconfig & Hp & Hfla & Hflc
          & Tconv & Tp & Tfla & Tflc).
  rewrite main_cases. cbv zeta. rewrite Hdata, !key_or_none_dict.
  rewrite !field_dict, Hconv, Hconfig, Tconv.
  rewrite !key_or_none_dict, !field_dict, Hp, Hfla, Hflc, Tp, Tfla, Tflc.
  reflexivity.
Qed.

(** X5: [main] makes an upload call only on a configured payload: one
    whose [data] is a dict with non-empty [conversions] and a [config]
    dict that holds a non-empty profile id, floodlight activity id and
    floodlight configuration id.  On every other payload, whatever its
    shape, the list of calls is left as it was. *)
Theorem main_calls_only_when_configured setup json_payload w :
  calls (snd (main setup json_payload w)) <> calls w ->
  exists conversion_data p fla flc,
    configured json_payload conversion_data p fla flc.
Proof.
  rewrite main_cases. cbv zeta.
  destruct (subscript json_payload "data") as [data | e] eqn:Hdata;
    [| intros H; now elim H].
  destruct (key_or_none data "conversions") as [conv | e] eqn:Hconv;
    [| intros H; now elim H].
  destruct (key_or_none data "config") as [config | e] eqn:Hconfig;
    [| intros H; now elim H].
  destruct (truthy conv) eqn:Tconv; [| intros H; now elim H].
  destruct (key_or_none config "profile_id") as [p | e] eqn:Hp;
    [| intros H; now elim H].
  destruct (key_or_none config "floodlight_activity_id") as [fla | e] eqn:Hfla;
    [| intros H; now elim H].
  destruct (key_or_none config "floodlight_configuration_id")
    as [flc | e] eqn:Hflc; [| intros H; now elim H].
  destruct (truthy p) eqn:Tp; [| intros H; now elim H].
  destruct (truthy fla) eqn:Tfla; [| intros H; now elim H].
  destruct (truthy flc) eqn:Tflc; [| intros H; now elim H].
  intros _.
  destruct (key_or_none_truthy _ _ _ Hconv Tconv) as (kv & -> & Hconv').
  destruct (key_or_none_truthy _ _ _ Hp Tp) as (ckv & -> & Hp').
  destruct (key_or_none_truthy _ _ _ Hfla Tfla) as (ckv' & [= <-] & Hfla').
  destruct (key_or_none_truthy _ _ _ Hflc Tflc) as (ckv' & [= <-] & Hflc').
  assert (Tconfig : truthy (JObj ckv) = true)
    by (destruct ckv; [discriminate Hp' | reflexivity]).
  destruct (key_or_none_truthy _ _ _ Hconfig Tconfig) as (kv' & [= <-] & Hc').
  exists conv, p, fla, flc, kv, ckv. repeat split; assumption.
Qed.

Lemma main_calls_only_when_configured_witness :
  exists conversion_data p fla flc,
    configured
      (pubsub_payload (sample_rows 3) (JStr "1234") (JStr "9012")
         (JStr "5678"))
      conversion_data p fla flc.
Proof.
  apply (main_calls_only_when_configured (Ret service_ok)
           (pubsub_payload (sample_rows 3) (JStr "1234") (JStr "9012")
              (JStr "5678")) initial).
  vm_compute. discriminate.
Defined.

(** X6: on a configured payload, an error raised by [setup()] (the
    credentials or the API client cannot be built) leaves [main]
    unhandled, after the payload and the starting line have been printed
    and before any upload call; this holds whatever the conversions are,
    as [setup()] runs before the rows are looked at. *)
Theorem setup_error_leaves_main json_payload conversion_data p fla flc e w :
  configured json_payload conversion_data p fla flc ->
  main (Raise e) json_payload w
  = (Raise e, printed w [PrintPayload json_payload; PrintStarting]).
Proof.
  intros Hc. rewrite (main_configured _ _ _ _ _ _ _ Hc).
  destruct Hc as (data & config & _ & _ & _ & _ & _ & _ & _ & _ & Tfla & Tflc).
  rewrite upload_data_setup_raises by assumption.
  now rewrite printed_printed.
Qed.

Lemma setup_error_leaves_main_witness :
  main (Raise (RemoteError "DefaultCredentialsError"))
    (pubsub_payload (sample_rows 3) (JStr "1234") (JStr "9012") (JStr "5678"))
    initial
  = (Raise (RemoteError "DefaultCredentialsError"),
     printed initial
       [PrintPayload
          (pubsub_payload (sample_rows 3) (JStr "1234") (JStr "9012")
             (JStr "5678"));
        PrintStarting]).
Proof.
  apply (setup_error_leaves_main
           (pubsub_payload (sample_rows 3) (JStr "1234") (JStr "9012")
              (JStr "5678"))
           (JArr (sample_rows 3)) (JStr "1234") (JStr "9012") (JStr "5678")).
  do 2 eexists. repeat split; reflexivity.
Defined.

(** X7: when the payload has no [conversions], or [conversions] is empty
    or [None], [main] prints the line of 155 and returns: no call, no
    reading of the three identifiers, so that a missing or malformed
    [config] goes unnoticed. *)
Theorem main_without_conversions setup json_payload data w :
  subscript json_payload "data" = Ret (JObj data) ->
  truthy (field (JObj data) "conversions") = false ->
  main setup json_payload w
  = (Ret tt, printed w [PrintPayload json_payload; PrintNoConversionData]).
Proof.
  intros Hdata Hconv. rewrite main_cases. cbv zeta.
  rewrite Hdata, !key_or_none_dict, Hconv. now rewrite printed_printed.
Qed.

Lemma main_without_conversions_witness :
  main (Ret service_ok) payload_without_conversions initial
  = (Ret tt,
     printed initial
       [PrintPayload payload_without_conversions; PrintNoConversionData]).
Proof.
  apply (main_without_conversions (Ret service_ok)
           payload_without_conversions [("conversions", JArr [])] initial);
    reflexivity.
Defined.

Lemma main_missing_identifier_witness :
  main (Ret service_ok) payload_without_activity initial
  = (Ret tt,
     printed initial
       [PrintPayload payload_without_activity; PrintMissingValues]).
Proof.
  apply (main_missing_identifier (Ret service_ok) payload_without_activity
           [("conversions", JArr (sample_rows 1));
            ("config",
             JObj [("profile_id", JStr "1234");
                   ("floodlight_configuration_id", JStr "5678")])]
           (JArr (sample_rows 1))
           [("profile_id", JStr "1234");
            ("floodlight_configuration_id", JStr "5678")]
           initial);
    reflexivity.
Defined.

(** ** Rows that are no list *)

(** X8: when [rows] is [None], a boolean, a number or a non-empty string,
    [upload_data] raises [TypeError] once the client is built: [len(rows)]
    fails, or the first character of the string cannot be indexed by a
    field name.  No call is made. *)
Theorem upload_data_not_rows svc rows p flc fla w :
  truthy fla = true ->
  truthy flc = true ->
  not_rows rows = true ->
  upload_data (Ret svc) rows p flc fla w
  = (Raise TypeError, printed w [PrintStarting; PrintAuthorized]).
Proof.
  intros Hfla Hflc Hrows.
  unfold upload_data, bind, print, lift, printed. simpl.
  rewrite Hfla, Hflc. simpl. rewrite <- app_assoc. simpl.
  destruct rows as [ | b | z | x | s | l | kv]; try discriminate Hrows;
    try reflexivity.
  destruct s as [|c s]; [discriminate Hrows |].
  cbn [py_rows chars list_ascii_of_string map].
  rewrite upload_loop_step. cbn [List.length Nat.ltb Nat.leb].
  unfold upload_window, bind, lift, window_body.
  cbn [Nat.add].
  unfold slice. cbn [skipn Nat.sub].
  destruct (Nat.min 100 (S (List.length
              (map (fun c0 => JStr (String c0 "")) (list_ascii_of_string s)))))
    as [|m] eqn:Hm; [lia |].
  reflexivity.
Qed.

Lemma upload_data_not_rows_witness :
  upload_data (Ret service_ok) (JStr "abc") (JStr "1234") (JStr "5678")
    (JStr "9012") initial
  = (Raise TypeError, printed initial [PrintStarting; PrintAuthorized]).
Proof.
  apply (upload_data_not_rows service_ok (JStr "abc") (JStr "1234")
           (JStr "5678") (JStr "9012") initial); reflexivity.
Defined.

(** ** A whole run *)

(** The requests of a run on conversion records against a service that
    accepts whatever it is sent. *)
Lemma upload_data_run svc rows p flc fla w :
  truthy fla = true ->
  truthy flc = true ->
  unique_keys fla = true ->
  unique_keys flc = true ->
  forallb conversion_record rows = true ->
  (forall n body, exists r, svc n p body = Ret r /\ reports_cleanly r) ->
  fst (upload_data (Ret svc) (JArr rows) p flc fla w) = Ret tt
  /\ calls (snd (upload_data (Ret svc) (JArr rows) p flc fla w))
     = calls w
       ++ map (fun k => (p, batch_request
                              (conversions_of fla flc (window rows k))))
            (seq 0 (window_count (List.length rows))).
Proof.
  intros Hfla Hflc Ufla Uflc Hrows Hsvc.
  rewrite upload_data_loop by assumption.
  destruct (turns_return svc rows p flc fla
              (fun k => batch_request (conversions_of fla flc (window rows k)))
              (List.length (calls w) + window_count (List.length rows))
              (seq 0 (window_count (List.length rows))))
    with (w := printed w [PrintStarting; PrintAuthorized])
    as [Hret Hcalls].
  - intros k Hk. apply in_seq in Hk. apply turn_bodies; auto. lia.
  - intros n body _. apply Hsvc.
  - rewrite length_seq. cbn [calls printed]. lia.
  - split; [exact Hret | exact Hcalls].
Qed.

Lemma nth_error_window (rows : list json) k j :
  j < 100 -> nth_error (window rows k) j = nth_error rows (100 * k + j).
Proof.
  intros Hj. rewrite window_firstn, nth_error_firstn.
  destruct (Nat.ltb_spec j 100) as [_ | H]; [| lia].
  apply nth_error_skipn.
Qed.

Lemma Forall2_nth_error {A B : Type} (R : A -> B -> Prop) l l' :
  Forall2 R l l' ->
  forall j x, nth_error l j = Some x ->
              exists y, nth_error l' j = Some y /\ R x y.
Proof.
  induction 1 as [|a b l l' Hab _ IH]; intros j x Hx.
  - destruct j; discriminate Hx.
  - destruct j as [|j]; simpl in *.
    + injection Hx as <-. eauto.
    + now apply IH.
Qed.

(** X9: in a run that goes through, the row number [i] (from 0) is sent
    in the call number [i / 100], at the position [i mod 100] of its
    conversions. *)
Theorem row_placement svc rows p flc fla i row :
  truthy fla = true ->
  truthy flc = true ->
  unique_keys fla = true ->
  unique_keys flc = true ->
  forallb conversion_record rows = true ->
  (forall n body, exists r, svc n p body = Ret r /\ reports_cleanly r) ->
  nth_error rows i = Some row ->
  exists conversions c,
    nth_error
      (calls (snd (upload_data (Ret svc) (JArr rows) p flc fla initial)))
      (i / 100)
    = Some (p, batch_request conversions)
    /\ nth_error conversions (i mod 100) = Some c
    /\ carries fla flc row c.
Proof.
  intros Hfla Hflc Ufla Uflc Hrows Hsvc Hrow.
  destruct (upload_data_run svc rows p flc fla initial) as [_ Hcalls];
    auto.
  rewrite Hcalls. change (calls initial) with (@nil request).
  rewrite List.app_nil_l.
  pose proof (Nat.div_mod_eq i 100) as E.
  pose proof (Nat.mod_upper_bound i 100) as B.
  assert (Hi : i < List.length rows) by (apply nth_error_Some; congruence).
  assert (Hk : i / 100 < window_count (List.length rows))
    by (apply window_count_lt; lia).
  exists (conversions_of fla flc (window rows (i / 100))).
  destruct (conversions_of_records fla flc (window rows (i / 100)))
    as [Hcs _]; auto using forallb_window.
  assert (Hw : nth_error (window rows (i / 100)) (i mod 100) = Some row).
  { rewrite nth_error_window by lia. now rewrite <- E. }
  destruct (Forall2_nth_error _ _ _ Hcs _ _ Hw) as (c & Hc & Hdict).
  exists c. split; [| split].
  - rewrite nth_error_map, nth_error_seq.
    destruct (Nat.ltb_spec (i / 100) (window_count (List.length rows)));
      [reflexivity | lia].
  - exact Hc.
  - now apply conversion_dict_carries.
Qed.

Lemma row_placement_witness :
  exists conversions c,
    nth_error
      (calls (snd (upload_data (Ret service_ok) (JArr (sample_rows 250))
                     (JStr "1234") (JStr "5678") (JStr "9012") initial)))
      (237 / 100)
    = Some (JStr "1234", batch_request conversions)
    /\ nth_error conversions (237 mod 100) = Some c
    /\ carries (JStr "9012") (JStr "5678") (sample_row "Cj0KCQjw" 237) c.
Proof.
  apply (row_placement service_ok (sample_rows 250) (JStr "1234")
           (JStr "5678") (JStr "9012") 237 (sample_row "Cj0KCQjw" 237));
    try reflexivity.
  intros n body. apply service_ok_reports.
Defined.

Lemma windows_carry rows fla flc ks :
  unique_keys fla = true ->
  unique_keys flc = true ->
  forallb conversion_record rows = true ->
  Forall2 (Forall2 (carries fla flc)) (map (window rows) ks)
    (map (fun k => conversions_of fla flc (window rows k)) ks).
Proof.
  intros Ufla Uflc Hrows. induction ks as [|k ks IH]; simpl; constructor;
    [| exact IH].
  destruct (conversions_of_records fla flc (window rows k))
    as [Hcs _]; auto using forallb_window.
  eapply Forall2_impl; [| exact Hcs].
  intros row c Hd. now apply conversion_dict_carries.
Qed.

(** X10: on a configured payload whose conversions are a list of
    conversion records, against a service that accepts what it is sent,
    [main] returns after [ceil (N / 100)] calls.  The calls are made under
    [config['profile_id']], and the conversions sent carry the rows one for
    one and in order, with [config['floodlight_activity_id']] as their
    floodlight activity id and [config['floodlight_configuration_id']] as
    their floodlight configuration id. *)
Theorem main_uploads_payload svc json_payload rows p fla flc :
  configured json_payload (JArr rows) p fla flc ->
  unique_keys fla = true ->
  unique_keys flc = true ->
  forallb conversion_record rows = true ->
  (forall n body, exists r, svc n p body = Ret r /\ reports_cleanly r) ->
  fst (main (Ret svc) json_payload initial) = Ret tt
  /\ exists batches,
       calls (snd (main (Ret svc) json_payload initial))
       = map (fun b => (p, batch_request b)) batches
       /\ List.length batches = (List.length rows + 99) / 100
       /\ Forall2 (carries fla flc) rows (List.concat batches).
Proof.
  intros Hc Ufla Uflc Hrows Hsvc.
  rewrite (main_configured _ _ _ _ _ _ _ Hc).
  destruct Hc as (_ & _ & _ & _ & _ & _ & _ & _ & _ & _ & Tfla & Tflc).
  destruct (upload_data_run svc rows p flc fla
              (printed initial [PrintPayload json_payload]))
    as [Hret Hcalls]; auto.
  split; [exact Hret |].
  exists (map (fun k => conversions_of fla flc (window rows k))
            (seq 0 (window_count (List.length rows)))).
  rewrite Hcalls.
  change (calls (printed initial [PrintPayload json_payload]))
    with (@nil request).
  rewrite List.app_nil_l. split; [| split].
  - now rewrite map_map.
  - now rewrite length_map, length_seq.
  - rewrite <- (concat_windows rows) at 1. apply Forall2_concat.
    now apply windows_carry.
Qed.

Lemma main_uploads_payload_witness :
  fst (main (Ret service_ok)
         (pubsub_payload (sample_rows 250) (JStr "1234") (JStr "9012")
            (JStr "5678")) initial) = Ret tt
  /\ exists batches,
       calls (snd (main (Ret service_ok)
                     (pubsub_payload (sample_rows 250) (JStr "1234")
                        (JStr "9012") (JStr "5678")) initial))
       = map (fun b => (JStr "1234", batch_request b)) batches
       /\ List.length batches = (List.length (sample_rows 250) + 99) / 100
       /\ Forall2 (carries (JStr "9012") (JStr "5678")) (sample_rows 250)
            (List.concat batches).
Proof.
  apply (main_uploads_payload service_ok
           (pubsub_payload (sample_rows 250) (JStr "1234") (JStr "9012")
              (JStr "5678"))
           (sample_rows 250) (JStr "1234") (JStr "9012") (JStr "5678"));
    try reflexivity.
  - do 2 eexists. repeat split; reflexivity.
  - intros n body. apply service_ok_reports.
Defined.

(** ** The walk of a whole response *)

Lemma report_line_silent line errors w :
  subscript line "errors" = Ret errors ->
  truthy errors = false ->
  report_line line w = (Ret tt, w).
Proof.
  intros Herr Hfalse.
  unfold report_line, try_except, report_errors, bind, lift, ret.
  now rewrite Herr, Hfalse.
Qed.

Lemma report_line_prints line es w :
  line_prints line es -> report_line line w = (Ret tt, printed w es).
Proof.
  intros [e gclid He Hg | errors Herr Hfalse
          | errors entries conversion Herr Htrue Hiter Hconv Hentries].
  - apply report_line_no_errors; eauto.
  - rewrite printed_nil. eapply report_line_silent; eauto.
  - eapply report_line_errors; eauto.
Qed.

Lemma walk_line_reports lines reports :
  Forall2 line_prints lines reports ->
  forall w,
    for_each lines report_line w = (Ret tt, printed w (List.concat reports)).
Proof.
  induction 1 as [|line es lines reports Hline _ IH]; intros w.
  - simpl. now rewrite printed_nil.
  - cbn [for_each List.concat]. unfold bind.
    rewrite (report_line_prints line es w Hline), IH.
    now rewrite printed_printed.
Qed.

(** X11: when every status line of a response with failures is of one of
    three kinds (no readable [errors] and a string [gclid]; an empty
    [errors]; a [conversion] and error entries with code and message), the
    walk returns and prints the reports of the lines in order and nothing
    else: the click id for the first kind, nothing at all for the second,
    the two lines of each entry for the third. *)
Theorem walk_prints_line_reports response lines reports w :
  failed_lines response lines ->
  Forall2 line_prints lines reports ->
  report_response response w = (Ret tt, printed w (List.concat reports)).
Proof.
  intros Hlines Hall. rewrite (report_response_walk _ _ _ Hlines).
  now apply walk_line_reports.
Qed.

Lemma walk_prints_line_reports_witness :
  report_response response_three_kinds initial
  = (Ret tt,
     printed initial
       (List.concat
          [flat_map (error_report (JObj [("gclid", JStr "Cj0KCQjw")]))
             [JObj [("code", JStr "NOT_FOUND");
                    ("message", JStr "Floodlight not found")]];
           [];
           [PrintLineInserted "EAIaIQob"]])).
Proof.
  apply (walk_prints_line_reports response_three_kinds
           [JObj [("conversion", JObj [("gclid", JStr "Cj0KCQjw")]);
                  ("errors",
                   JArr [JObj [("code", JStr "NOT_FOUND");
                               ("message", JStr "Floodlight not found")]])];
            JObj [("conversion", JObj [("gclid", JStr "CjwKCAjw")]);
                  ("errors", JArr [])];
            JObj [("gclid", JStr "EAIaIQob")]]).
  - exists (JBool true). eexists. repeat split; reflexivity.
  - constructor; [| constructor; [| constructor; [| constructor]]].
    + eapply prints_errors; reflexivity.
    + eapply prints_nothing; reflexivity.
    + eapply prints_inserted; reflexivity.
Defined.

Lemma report_entry_incomplete line conversion entry w :
  subscript line "conversion" = Ret conversion ->
  error_entry entry = false ->
  exists e,
    report_entry line entry w
    = (Raise e, printed w [PrintErrorInLine (json_dumps conversion)]).
Proof.
  intros Hconv Hentry. unfold error_entry, has_key in Hentry.
  unfold report_entry, bind, lift, print, printed. rewrite Hconv. simpl.
  destruct (subscript entry "code") as [code | e]; [| eauto].
  destruct (subscript entry "message") as [message | e];
    [discriminate Hentry | eauto].
Qed.

(** X12: when an error entry of a status line has no code or no message,
    the entries before it are reported in full, the conversion is printed
    once more for the entry itself, and the exception of the missing key
    is then taken by the bare [except]: the same line is reported as
    inserted, and the entries after the incomplete one are never
    reported. *)
Theorem incomplete_entry_reported_inserted line errors good bad rest
    conversion gclid w :
  subscript line "errors" = Ret errors ->
  truthy errors = true ->
  py_iter errors = Ret (good ++ bad :: rest) ->
  subscript line "conversion" = Ret conversion ->
  subscript line "gclid" = Ret (JStr gclid) ->
  forallb error_entry good = true ->
  error_entry bad = false ->
  report_line line w
  = (Ret tt,
     printed w
       (flat_map (error_report conversion) good
        ++ [PrintErrorInLine (json_dumps conversion);
            PrintLineInserted gclid])).
Proof.
  intros Herr Htrue Hiter Hconv Hg Hgood Hbad.
  unfold report_line, try_except, report_errors.
  unfold bind at 1. unfold lift at 1. rewrite Herr, Htrue.
  unfold bind at 1. unfold lift at 1.
  unfold bind at 1. unfold lift at 1. rewrite Hiter.
  rewrite for_each_app. unfold bind at 1.
  rewrite (report_entries conversion line good Hconv Hgood).
  cbn [for_each]. unfold bind at 1.
  destruct (report_entry_incomplete line conversion bad
              (printed w (flat_map (error_report conversion) good))
              Hconv Hbad) as [e ->].
  rewrite (report_inserted_str line gclid _ Hg).
  now rewrite !printed_printed.
Qed.

Lemma incomplete_entry_reported_inserted_witness :
  report_line status_half_entry initial
  = (Ret tt,
     printed initial
       (flat_map (error_report (JObj [("gclid", JStr "CjwKCAjw")]))
          [JObj [("code", JStr "INVALID_ARGUMENT");
                 ("message", JStr "Bad timestamp")]]
        ++ [PrintErrorInLine (json_dumps (JObj [("gclid", JStr "CjwKCAjw")]));
            PrintLineInserted "CjwKCAjw"])).
Proof.
  apply (incomplete_entry_reported_inserted status_half_entry
           (JArr [JObj [("code", JStr "INVALID_ARGUMENT");
                        ("message", JStr "Bad timestamp")];
                  JObj [("code", JStr "PERMISSION_DENIED")];
                  JObj [("code", JStr "NOT_FOUND");
                        ("message", JStr "Floodlight not found")]])
           [JObj [("code", JStr "INVALID_ARGUMENT");
                  ("message", JStr "Bad timestamp")]]
           (JObj [("code", JStr "PERMISSION_DENIED")])
           [JObj [("code", JStr "NOT_FOUND");
                  ("message", JStr "Floodlight not found")]]
           (JObj [("gclid", JStr "CjwKCAjw")]) "CjwKCAjw" initial);
    reflexivity.
Defined.

(** ** Runs that go through *)

(** X13: rejected conversions do not stop the upload.  When every response
    either reports no failure or has status lines of the three kinds the
    walk gets through, [upload_data] returns after submitting every
    window, with no retry: [ceil (N / 100)] calls in all. *)
Theorem rejected_lines_do_not_stop_upload svc rows p flc fla :
  truthy fla = true ->
  truthy flc = true ->
  unique_keys fla = true ->
  unique_keys flc = true ->
  forallb conversion_record rows = true ->
  (forall n body,
     exists r,
       svc n p body = Ret r
       /\ ((exists has_failures,
              subscript r "hasFailures" = Ret has_failures
              /\ truthy has_failures = false)
           \/ (exists lines reports,
                 failed_lines r lines
                 /\ Forall2 line_prints lines reports))) ->
  fst (upload_data (Ret svc) (JArr rows) p flc fla initial) = Ret tt
  /\ List.length
       (calls (snd (upload_data (Ret svc) (JArr rows) p flc fla initial)))
     = (List.length rows + 99) / 100.
Proof.
  intros Hfla Hflc Ufla Uflc Hrows Hsvc.
  destruct (upload_data_run svc rows p flc fla initial) as [Hret Hcalls];
    auto.
  - intros n body. destruct (Hsvc n body) as (r & Hr & Hwalk).
    exists r. split; [exact Hr |]. intros w.
    destruct Hwalk as [(hf & Hhf & Hfalse) | (lines & reports & Hl & Hall)].
    + unfold report_response, bind, lift. now rewrite Hhf, Hfalse.
    + rewrite (report_response_walk _ _ _ Hl).
      now rewrite (walk_line_reports lines reports Hall).
  - split; [exact Hret |].
    rewrite Hcalls. change (calls initial) with (@nil request).
    now rewrite List.app_nil_l, length_map, length_seq.
Qed.

Lemma rejected_lines_do_not_stop_upload_witness :
  fst (upload_data (Ret service_rejects_some) (JArr (sample_rows 250))
         (JStr "1234") (JStr "5678") (JStr "9012") initial) = Ret tt
  /\ List.length
       (calls (snd (upload_data (Ret service_rejects_some)
                      (JArr (sample_rows 250)) (JStr "1234") (JStr "5678")
                      (JStr "9012") initial)))
     = (List.length (sample_rows 250) + 99) / 100.
Proof.
  apply (rejected_lines_do_not_stop_upload service_rejects_some
           (sample_rows 250) (JStr "1234") (JStr "5678") (JStr "9012"));
    try reflexivity.
  intros n body. exists response_three_kinds. split; [reflexivity |].
  right.
  exists [JObj [("conversion", JObj [("gclid", JStr "Cj0KCQjw")]);
                ("errors",
                 JArr [JObj [("code", JStr "NOT_FOUND");
                             ("message", JStr "Floodlight not found")]])];
          JObj [("conversion", JObj [("gclid", JStr "CjwKCAjw")]);
                ("errors", JArr [])];
          JObj [("gclid", JStr "EAIaIQob")]].
  eexists. split.
  - exists (JBool true). eexists. repeat split; reflexivity.
  - constructor; [| constructor; [| constructor; [| constructor]]].
    + eapply prints_errors; reflexivity.
    + eapply prints_nothing; reflexivity.
    + eapply prints_inserted; reflexivity.
Defined.

Lemma turn_accepted svc rows p flc fla k body r has_failures w :
  window_body (window rows k) fla flc request_head = Ret body ->
  svc (List.length (calls w)) p body = Ret r ->
  subscript r "hasFailures" = Ret has_failures ->
  truthy has_failures = false ->
  turn svc rows p flc fla k w
  = (Ret tt,
     World (calls w ++ [(p, body)]) (stdout w ++ accepted_report p body)).
Proof.
  intros Hbody Hsvc Hhf Hfalse.
  unfold turn, upload_window. fold (window rows k).
  unfold bind, lift, print, execute, report_response.
  rewrite Hbody. simpl. rewrite Hsvc. unfold bind, lift, print. simpl.
  rewrite Hhf, Hfalse. simpl. now rewrite <- !app_assoc.
Qed.

Lemma turns_accepted svc rows p flc fla body_of ks :
  (forall k, In k ks ->
     window_body (window rows k) fla flc request_head = Ret (body_of k)) ->
  (forall n body,
     exists r has_failures,
       svc n p body = Ret r
       /\ subscript r "hasFailures" = Ret has_failures
       /\ truthy has_failures = false) ->
  forall w,
    for_each ks (turn svc rows p flc fla) w
    = (Ret tt,
       World (calls w ++ map (fun k => (p, body_of k)) ks)
         (stdout w
          ++ flat_map (fun k => accepted_report p (body_of k)) ks)).
Proof.
  intros Hbody Hsvc. induction ks as [|k ks IH]; intros w.
  - simpl. rewrite !List.app_nil_r. now destruct w.
  - cbn [for_each map flat_map]. unfold bind.
    destruct (Hsvc (List.length (calls w)) (body_of k))
      as (r & hf & Hr & Hhf & Hfalse).
    rewrite (turn_accepted svc rows p flc fla k (body_of k) r hf w);
      auto using in_eq.
    rewrite IH by (intros k' Hk'; apply Hbody; now right).
    cbn [calls stdout]. now rewrite <- !app_assoc.
Qed.

(** X14: when every batch is accepted ([hasFailures] false in every
    response), a run on conversion records prints the starting line, the
    authorization line and then, for each batch in order, its request, its
    response, the success line and the closing line, and nothing else; it
    returns with one call per window. *)
Theorem accepted_run_log svc rows p flc fla w :
  truthy fla = true ->
  truthy flc = true ->
  unique_keys fla = true ->
  unique_keys flc = true ->
  forallb conversion_record rows = true ->
  (forall n body,
     exists r has_failures,
       svc n p body = Ret r
       /\ subscript r "hasFailures" = Ret has_failures
       /\ truthy has_failures = false) ->
  upload_data (Ret svc) (JArr rows) p flc fla w
  = (Ret tt,
     World
       (calls w
        ++ map (fun k =>
                  (p, batch_request (conversions_of fla flc (window rows k))))
             (seq 0 ((List.length rows + 99) / 100)))
       (stdout w
        ++ [PrintStarting; PrintAuthorized]
        ++ flat_map
             (fun k =>
                accepted_report p
                  (batch_request (conversions_of fla flc (window rows k))))
             (seq 0 ((List.length rows + 99) / 100)))).
Proof.
  intros Hfla Hflc Ufla Uflc Hrows Hsvc.
  rewrite upload_data_loop by assumption.
  fold (window_count (List.length rows)).
  rewrite (turns_accepted svc rows p flc fla
             (fun k => batch_request (conversions_of fla flc (window rows k))))
    by (auto; intros k Hk; apply in_seq in Hk; apply turn_bodies; auto; lia).
  unfold printed. cbn [calls stdout]. now rewrite <- app_assoc.
Qed.

Lemma accepted_run_log_witness :
  upload_data (Ret service_ok) (JArr (sample_rows 3)) (JStr "1234")
    (JStr "5678") (JStr "9012") initial
  = (Ret tt,
     World
       (calls initial
        ++ map (fun k =>
                  (JStr "1234",
                   batch_request
                     (conversions_of (JStr "9012") (JStr "5678")
                        (window (sample_rows 3) k))))
             (seq 0 ((List.length (sample_rows 3) + 99) / 100)))
       (stdout initial
        ++ [PrintStarting; PrintAuthorized]
        ++ flat_map
             (fun k =>
                accepted_report (JStr "1234")
                  (batch_request
                     (conversions_of (JStr "9012") (JStr "5678")
                        (window (sample_rows 3) k))))
             (seq 0 ((List.length (sample_rows 3) + 99) / 100)))).
Proof.
  apply (accepted_run_log service_ok (sample_rows 3) (JStr "1234")
           (JStr "5678") (JStr "9012") initial); try reflexivity.
  intros n body. exists response_ok, (JBool false).
  repeat split; reflexivity.
Defined.
